(** * nequip.data._nl : neighbor list construction

    A shallow embedding of [src/nequip/data/_nl.py]: the module-level
    configuration read from the process environment and the function
    [neighbor_list_and_relative_vec], which dispatches to one of three
    external neighbor-search libraries, removes same-image self-edges and
    packs the result into tensors on the device of the input positions.

    The external libraries (ase, matscipy, vesin, torch) are not part of the
    repository; they enter through the interface [Libs].  Python exceptions
    and warnings are kept explicit: a computation yields the list of events it
    caused (warnings, calls into the external libraries) together with either
    a raised exception or a returned value.

    Module [Evaluate] adds the argument handling and the index arithmetic
    of [main] in [src/nequip/scripts/evaluate.py]: which argument lists
    pass, where the test indexes come from, and how they are repeated,
    divided between ranks and walked through in batches. *)

From stdpp Require Import gmap strings list pretty.
From Stdlib Require Import ZArith Lia.

Open Scope Z_scope.

(** ** Python-side data *)

(** [torch.dtype], restricted to the types that survive [Tensor.numpy()]. *)
Inductive dtype := float16 | float32 | float64 | int64.

(** [torch.device]: a type string and an optional ordinal. *)
Record device := { dev_type : string; dev_index : option nat }.

Definition cpu : device := {| dev_type := "cpu"; dev_index := None |}.

Definition vec3 (A : Type) : Type := (A * A * A)%type.
Definition mat3 (A : Type) : Type := vec3 (vec3 A).

Definition vec3_map {A B} (f : A → B) (v : vec3 A) : vec3 B :=
  let '(x, y, z) := v in (f x, f y, f z).
Definition mat3_map {A B} (f : A → B) (m : mat3 A) : mat3 B :=
  vec3_map (vec3_map f) m.

(** A [torch.Tensor]: where it lives, its element type, its entries. *)
Record tensor (A : Type) := Tensor
  { t_device : device; t_dtype : dtype; t_data : A }.
Arguments Tensor {A} _ _ _.
Arguments t_device {A} _.
Arguments t_dtype {A} _.
Arguments t_data {A} _.

(** The [pos] argument: a tensor, or anything [np.asarray] accepts. *)
Inductive pos_arg (num : Type) :=
| PosTensor (t : tensor (list (vec3 num)))
| PosArray (a : list (vec3 num)).
Arguments PosTensor {num} _.
Arguments PosArray {num} _.

(** The [cell] argument: a tensor, an array-like, or [None]. *)
Inductive cell_arg (num : Type) :=
| CellTensor (t : tensor (mat3 num))
| CellArray (a : mat3 num)
| CellNone.
Arguments CellTensor {num} _.
Arguments CellArray {num} _.
Arguments CellNone {num}.

(** The [pbc] argument: one bool, or a 3-tuple of bools. *)
Inductive pbc_arg :=
| PbcBool (b : bool)
| PbcTuple (t : vec3 bool).

(** One neighbor pair: source index, target index, periodic shift. *)
Definition edge : Type := (Z * Z * vec3 Z)%type.

(** ** Exceptions, events, and the monad that carries them *)

Inductive exn :=
| AssertionError (msg : option string)
| ValueError (msg : string)
| NameError (name : string)
| UnboundLocalError (name : string).

Definition exn_message (e : exn) : option string :=
  match e with
  | AssertionError m => m
  | ValueError m => Some m
  | NameError _ | UnboundLocalError _ => None
  end.

(** The external entry points the function calls. *)
Inductive extfn :=
| ase_complete_cell
| vesin_compute
| matscipy_neighbour_list
| ase_primitive_neighbor_list.

Inductive event :=
| Warn (msg : string)
| Call (f : extfn).

Definition is_search (ev : event) : bool :=
  match ev with
  | Call vesin_compute | Call matscipy_neighbour_list
  | Call ase_primitive_neighbor_list => true
  | _ => false
  end.

Inductive outcome (A : Type) :=
| Raise (e : exn)
| Return (a : A).
Arguments Raise {A} _.
Arguments Return {A} _.

Definition M (A : Type) : Type := (list event * outcome A)%type.

#[global] Instance py_ret : MRet M := λ A a, ([], Return a).
#[global] Instance py_raise : MThrow exn M := λ A e, ([], Raise e).
#[global] Instance py_bind : MBind M := λ A B k m,
  match m with
  | (l, Raise e) => (l, Raise e)
  | (l, Return a) => let '(l', r) := k a in (l ++ l', r)
  end.

Definition emit (ev : event) : M unit := ([ev], Return tt).

(** [assert c] and [assert c, msg], as the interpreter runs them by default
    (assertions enabled). *)
Definition py_assert (c : bool) (msg : option string) : M unit :=
  if c then mret tt else mthrow (AssertionError msg).

Definition events {A} (m : M A) : list event := fst m.
Definition result {A} (m : M A) : outcome A := snd m.

(** No neighbor search was started. *)
Definition no_search {A} (m : M A) : Prop :=
  forallb (λ ev, negb (is_search ev)) (events m) = true.

(** ** Module level: configuration read at import *)

(** [str.lower()] on ASCII text. *)
Definition lower_ascii (c : Ascii.ascii) : Ascii.ascii :=
  let n := Ascii.N_of_ascii c in
  if ((65 <=? n) && (n <=? 90))%N then Ascii.ascii_of_N (n + 32) else c.

Fixpoint lower (s : string) : string :=
  match s with
  | EmptyString => EmptyString
  | String c s' => String (lower_ascii c) (lower s')
  end.

(** [os.environ.get(key, dflt)]. *)
Definition environ_get (environ : gmap string string) (key dflt : string)
  : string :=
  default dflt (environ !! key).

Definition string_in (s : string) (l : list string) : bool :=
  existsb (String.eqb s) l.

(** The two module globals. *)
Record globals := Globals
  { _ERROR_ON_NO_EDGES : bool;
    _NEQUIP_NL : string }.

(** Lines 18-31, run once when the module is imported. *)
Definition import_module (environ : gmap string string) : M globals :=
  let _ERROR_ON_NO_EDGES :=
    lower (environ_get environ "NEQUIP_ERROR_ON_NO_EDGES" "true") in
  py_assert (string_in _ERROR_ON_NO_EDGES ["true"; "false"]) None ;;
  let _ERROR_ON_NO_EDGES := String.eqb _ERROR_ON_NO_EDGES "true" in
  let _NEQUIP_NL := lower (environ_get environ "NEQUIP_NL" "matscipy") in
  py_assert (string_in _NEQUIP_NL ["ase"; "matscipy"; "vesin"])
    (Some ("Unknown neighborlist NEQUIP_NL = " +:+ _NEQUIP_NL)) ;;
  mret (Globals _ERROR_ON_NO_EDGES _NEQUIP_NL).

(** ** The external libraries *)

(** What a neighbor search hands back for the quantities ["ijS"]: one source
    index, one target index and one integer shift per pair, as three arrays
    of one length.  Kept here as one row per pair; the caller's tuple
    unpacking splits it into its three columns. *)
Definition ijS : Type := list edge.

(** The libraries the function calls, over the numeric type [num] of
    coordinates and cell entries.
    - [zero], [to_dtype dt x]: the number 0, and [x] converted to [dt]
      ([Tensor.to(dtype=dt)], [torch.as_tensor(_, dtype=dt)]);
    - [fmt x]: the text an f-string prints for [x];
    - [get_default_dtype]: [torch.get_default_dtype()];
    - [complete_cell]: [ase.geometry.complete_cell], which returns a new
      3x3 array and leaves its argument as it was;
    - [ase_nl pbc cell positions cutoff self_interaction]:
      [ase.neighborlist.primitive_neighbor_list("ijS", ...)];
    - [matscipy_nl pbc cell positions cutoff]:
      [matscipy.neighbours.neighbour_list("ijS", ...)];
    - [vesin_nl]: [NeighborList(cutoff, full_list=True).compute(points, box,
      periodic, "ijS")], or [None] when [from vesin import NeighborList]
      failed at import and the name was left undefined.
    The cell completion and the searches are taken to return a value; a
    failure inside one of them is outside this model. *)
Class Libs (num : Type) := {
  zero : num;
  to_dtype : dtype → num → num;
  fmt : num → string;
  get_default_dtype : dtype;
  complete_cell : mat3 num → mat3 num;
  ase_nl : vec3 bool → mat3 num → list (vec3 num) → num → bool → ijS;
  matscipy_nl : vec3 bool → mat3 num → list (vec3 num) → num → ijS;
  vesin_nl : option (num → list (vec3 num) → mat3 num → bool → ijS)
}.

(** ** numpy on the three result columns *)

Definition vec3_eqb (u v : vec3 Z) : bool :=
  let '(a, b, c) := u in let '(x, y, z) := v in
  (a =? x) && (b =? y) && (c =? z).

(** [np.all(shifts == 0, axis=1)] *)
Definition rows_all_zero (shifts : list (vec3 Z)) : list bool :=
  map (λ S, vec3_eqb S (0, 0, 0)) shifts.

(** [first_idex == second_idex] *)
Definition np_eq (a b : list Z) : list bool := zip_with Z.eqb a b.

(** [a &= b], [~a], [np.any(a)] *)
Definition np_and (a b : list bool) : list bool := zip_with andb a b.
Definition np_not (a : list bool) : list bool := map negb a.
Definition np_any (a : list bool) : bool := existsb id a.

(** [a[mask]]: the entries of [a] at which the mask is true.  Array and
    mask have one length wherever the function indexes. *)
Fixpoint np_take {A} (a : list A) (mask : list bool) : list A :=
  match a, mask with
  | x :: a', m :: mask' =>
      if m then x :: np_take a' mask' else np_take a' mask'
  | _, _ => []
  end.

(** The three columns of an ["ijS"] result. *)
Definition col_i (r : ijS) : list Z := map (λ e, e.1.1) r.
Definition col_j (r : ijS) : list Z := map (λ e, e.1.2) r.
Definition col_S (r : ijS) : list (vec3 Z) := map (λ e, e.2) r.

(** Rows from columns: pair [k] is [(i[k], j[k], S[k])]. *)
Definition rows (i j : list Z) (S : list (vec3 Z)) : list edge :=
  zip (zip i j) S.

(** ** neighbor_list_and_relative_vec *)

(** The returned triple [(edge_index, shifts, cell_tensor)].  [edge_index]
    holds its two rows; the entries of [shifts] are the integer shifts,
    stored with the floating dtype of the tensor. *)
Record nl_output (num : Type) := NlOutput
  { edge_index : tensor (list Z * list Z);
    edge_cell_shift : tensor (list (vec3 Z));
    cell_out : tensor (mat3 num) }.
Arguments NlOutput {num} _ _ _.
Arguments edge_index {num} _.
Arguments edge_cell_shift {num} _.
Arguments cell_out {num} _.

(** The edges a returned triple describes. *)
Definition out_edges {num} (o : nl_output num) : list edge :=
  rows (t_data (edge_index o)).1 (t_data (edge_index o)).2
       (t_data (edge_cell_shift o)).

Definition gpu_warning : string :=
  "Currently, neighborlists require a round trip to the CPU. Please pass CPU tensors if possible.".

Definition mixed_pbc_message : string :=
  "different periodic boundary conditions on different axes are not supported by vesin neighborlist, use ASE or matscipy".

Section NeighborList.
Context {num : Type} `{L : Libs num}.

Definition no_edges_message (r_max : num) : string :=
  "Every single atom has no neighbors within the cutoff r_max=" +:+
  fmt r_max +:+
  " (after eliminating self edges, no edges remain in this system)".

(** Lines 78-79. *)
Definition normalize_pbc (pbc : pbc_arg) : vec3 bool :=
  match pbc with
  | PbcBool b => (b, b, b)
  | PbcTuple t => t
  end.

(** Lines 81-89: the host copy of the positions, and where and in which
    dtype the outputs go. *)
Definition resolve_pos (pos : pos_arg num)
  : list (vec3 num) * device * dtype :=
  match pos with
  | PosTensor t => (t_data t, t_device t, t_dtype t)
  | PosArray a => (a, cpu, get_default_dtype)
  end.

(** Lines 91-95. *)
Definition warn_round_trip (out_device : device) : M unit :=
  if negb (String.eqb (dev_type out_device) "cpu")
  then emit (Warn gpu_warning) else mret tt.

(** Lines 97-107: [(temp_cell, cell_tensor)]. *)
Definition resolve_cell (cell : cell_arg num)
    (out_device : device) (out_dtype : dtype)
  : mat3 num * tensor (mat3 num) :=
  let zeros := ((zero, zero, zero), (zero, zero, zero), (zero, zero, zero)) in
  match cell with
  | CellTensor c =>
      (t_data c,
       Tensor out_device out_dtype (mat3_map (to_dtype out_dtype) (t_data c)))
  | CellArray a =>
      (a, Tensor out_device out_dtype (mat3_map (to_dtype out_dtype) a))
  | CellNone =>
      (zeros,
       Tensor out_device out_dtype (mat3_map (to_dtype out_dtype) zeros))
  end.

(** Lines 112-147: the dispatch on [NL].  The value is [None] when no
    branch ran, which leaves [first_idex], [second_idex] and [shifts]
    unbound. *)
Definition nl_dispatch (NL : string)
    (self_interaction strict_self_interaction : bool)
    (pbc : vec3 bool) (temp_cell : mat3 num) (temp_pos : list (vec3 num))
    (r_max : num) : M (option ijS) :=
  if String.eqb NL "vesin" then
    py_assert (strict_self_interaction && negb self_interaction) None ;;
    let '(pbc0, pbc1, pbc2) := pbc in
    periodic ←
      (if pbc0 && pbc1 && pbc2 then mret true
       else if negb pbc0 && negb pbc1 && negb pbc2 then mret false
       else mthrow (ValueError mixed_pbc_message)) ;
    match vesin_nl with
    | None => mthrow (NameError "vesin_nl")
    | Some compute =>
        emit (Call vesin_compute) ;;
        mret (Some (compute r_max temp_pos temp_cell periodic))
    end
  else if String.eqb NL "matscipy" then
    py_assert (strict_self_interaction && negb self_interaction) None ;;
    emit (Call matscipy_neighbour_list) ;;
    mret (Some (matscipy_nl pbc temp_cell temp_pos r_max))
  else if String.eqb NL "ase" then
    emit (Call ase_primitive_neighbor_list) ;;
    mret (Some (ase_nl pbc temp_cell temp_pos r_max strict_self_interaction))
  else mret None.

(** Reading the local [first_idex]. *)
Definition load_ijS (r : option ijS)
  : M (list Z * list Z * list (vec3 Z)) :=
  match r with
  | None => mthrow (UnboundLocalError "first_idex")
  | Some r => mret (col_i r, col_j r, col_S r)
  end.

(** Lines 149-160, on bound columns. *)
Definition eliminate_self_edges (g : globals) (r_max : num)
    (first_idex second_idex : list Z) (shifts : list (vec3 Z))
  : M (list Z * list Z * list (vec3 Z)) :=
  let bad_edge := np_eq first_idex second_idex in
  let bad_edge := np_and bad_edge (rows_all_zero shifts) in
  let keep_edge := np_not bad_edge in
  if _ERROR_ON_NO_EDGES g && negb (np_any keep_edge)
  then mthrow (ValueError (no_edges_message r_max))
  else mret (np_take first_idex keep_edge,
             np_take second_idex keep_edge,
             np_take shifts keep_edge).

(** Lines 162-172. *)
Definition build_output (out_device : device) (out_dtype : dtype)
    (first_idex second_idex : list Z) (shifts : list (vec3 Z))
    (cell_tensor : tensor (mat3 num)) : nl_output num :=
  let edge_index := Tensor out_device int64 (first_idex, second_idex) in
  let shifts := Tensor out_device out_dtype shifts in
  NlOutput edge_index shifts cell_tensor.

Definition neighbor_list_and_relative_vec (g : globals)
    (pos : pos_arg num) (r_max : num)
    (self_interaction strict_self_interaction : bool)
    (cell : cell_arg num) (pbc : pbc_arg) (NL : string)
  : M (nl_output num) :=
  let pbc := normalize_pbc pbc in
  let '(temp_pos, out_device, out_dtype) := resolve_pos pos in
  warn_round_trip out_device ;;
  let '(temp_cell, cell_tensor) := resolve_cell cell out_device out_dtype in
  emit (Call ase_complete_cell) ;;
  let temp_cell := complete_cell temp_cell in
  found ← nl_dispatch NL self_interaction strict_self_interaction
            pbc temp_cell temp_pos r_max ;
  '(first_idex, second_idex, shifts) ←
    (if negb self_interaction then
       '(first_idex, second_idex, shifts) ← load_ijS found ;
       eliminate_self_edges g r_max first_idex second_idex shifts
     else load_ijS found) ;
  mret (build_output out_device out_dtype
          first_idex second_idex shifts cell_tensor).

(** The call with [NL] left at its default, the module global. *)
Definition neighbor_list_and_relative_vec_default_NL (g : globals)
    (pos : pos_arg num) (r_max : num)
    (self_interaction strict_self_interaction : bool)
    (cell : cell_arg num) (pbc : pbc_arg) : M (nl_output num) :=
  neighbor_list_and_relative_vec g pos r_max
    self_interaction strict_self_interaction cell pbc (_NEQUIP_NL g).

End NeighborList.

(** ** What the self-edge filter is meant to do *)

(** A same-image self-edge: source equals target and the shift is zero. *)
Definition trivial_self (e : edge) : bool :=
  (e.1.1 =? e.1.2) && vec3_eqb e.2 (0, 0, 0).

(** The rows that are left once the same-image self-edges are dropped. *)
Definition remove_trivial (r : ijS) : list edge :=
  List.filter (λ e, negb (trivial_self e)) r.

(** The mask [keep_edge] the code computes from the three columns. *)
Definition keep_mask (r : ijS) : list bool :=
  np_not (np_and (np_eq (col_i r) (col_j r)) (rows_all_zero (col_S r))).

Definition neg3 (S : vec3 Z) : vec3 Z := vec3_map Z.opp S.

(** Every edge has its reverse: [(t, s, -S)] for [(s, t, S)]. *)
Definition closed_under_reversal (es : list edge) : Prop :=
  ∀ s t S, (s, t, S) ∈ es → (t, s, neg3 S) ∈ es.


(** The message [msg] contains the text [shown]. *)
Definition names_value (shown msg : string) : Prop :=
  ∃ pre post, msg = pre +:+ shown +:+ post.

(** ** A reference search on integer coordinates

    A direct pair-by-pair search over the nearest periodic images, which
    takes the place of the three external searches when the function is run
    on sample systems.  Coordinates, cell entries and the cutoff are
    integers; two atoms are neighbors when their squared distance is below
    the squared cutoff.  In every sample below the cutoff is shorter than
    twice the cell side, so no image beyond the nearest ones is in reach.
    Like the libraries it stands for, the search leaves out the pair of an
    atom with itself in the same image unless asked for self-interaction;
    matscipy and vesin are never asked. *)
Module Reference.

Definition vadd (u v : vec3 Z) : vec3 Z :=
  let '(a, b, c) := u in let '(x, y, z) := v in (a + x, b + y, c + z).
Definition vscale (k : Z) (v : vec3 Z) : vec3 Z := vec3_map (Z.mul k) v.

(** Position [p] moved by [S] cell vectors (the rows of [cell]). *)
Definition image (cell : mat3 Z) (p : vec3 Z) (S : vec3 Z) : vec3 Z :=
  let '(a0, a1, a2) := cell in let '(s0, s1, s2) := S in
  vadd p (vadd (vscale s0 a0) (vadd (vscale s1 a1) (vscale s2 a2))).

Definition dist2 (u v : vec3 Z) : Z :=
  let '(a, b, c) := u in let '(x, y, z) := v in
  (a - x) * (a - x) + (b - y) * (b - y) + (c - z) * (c - z).

Definition axis_shifts (periodic : bool) : list Z :=
  if periodic then [-1; 0; 1] else [0].

Definition window (pbc : vec3 bool) : list (vec3 Z) :=
  let '(p0, p1, p2) := pbc in
  s0 ← axis_shifts p0; s1 ← axis_shifts p1; s2 ← axis_shifts p2;
  [(s0, s1, s2)].

Definition indexed (pos : list (vec3 Z)) : list (Z * vec3 Z) :=
  imap (λ k p, (Z.of_nat k, p)) pos.

Definition search (pbc : vec3 bool) (cell : mat3 Z) (pos : list (vec3 Z))
    (cutoff : Z) (self_interaction : bool) : ijS :=
  '(i, pi) ← indexed pos; '(j, pj) ← indexed pos; S ← window pbc;
  if (0 <? cutoff) && (dist2 pi (image cell pj S) <? cutoff * cutoff)
     && (self_interaction || negb (trivial_self (i, j, S)))
  then [(i, j, S)] else [].

Definition is_zero_row (v : vec3 Z) : bool := vec3_eqb v (0, 0, 0).

(** Cell completion where no lattice vector or every lattice vector is
    missing: a cell without zero rows is kept, the zero cell becomes the
    unit cell. *)
Definition complete (cell : mat3 Z) : mat3 Z :=
  let '(a0, a1, a2) := cell in
  if is_zero_row a0 && is_zero_row a1 && is_zero_row a2
  then ((1, 0, 0), (0, 1, 0), (0, 0, 1))
  else cell.

#[export] Instance libs : Libs Z := {|
  zero := 0;
  to_dtype := λ _ x, x;
  fmt := pretty;
  get_default_dtype := float32;
  complete_cell := complete;
  ase_nl := search;
  matscipy_nl := λ pbc cell pos cutoff, search pbc cell pos cutoff false;
  vesin_nl := Some (λ cutoff points box periodic,
                search (periodic, periodic, periodic) box points cutoff false)
|}.

(** The same libraries on a machine where vesin is not installed. *)
Definition libs_without_vesin : Libs Z := {|
  zero := 0;
  to_dtype := λ _ x, x;
  fmt := pretty;
  get_default_dtype := float32;
  complete_cell := complete;
  ase_nl := search;
  matscipy_nl := λ pbc cell pos cutoff, search pbc cell pos cutoff false;
  vesin_nl := None
|}.

Definition default_globals : globals := Globals true "matscipy".

(** The function on these libraries. *)
Definition run := neighbor_list_and_relative_vec (L := libs).

Definition cuda0 : device := {| dev_type := "cuda"; dev_index := Some 0%nat |}.

(** Two atoms 3 apart on the x axis. *)
Definition dimer : list (vec3 Z) := [(0, 0, 0); (3, 0, 0)].

(** One atom at the origin. *)
Definition single : list (vec3 Z) := [(0, 0, 0)].

Definition cubic (a : Z) : mat3 Z := ((a, 0, 0), (0, a, 0), (0, 0, a)).

End Reference.

(** ** Vocabulary for the statements *)

Definition backends : list string := ["ase"; "matscipy"; "vesin"].

(** The three flags do not all agree. *)
Definition mixed_pbc (pbc : vec3 bool) : bool :=
  let '(p0, p1, p2) := pbc in
  negb ((p0 && p1 && p2) || (negb p0 && negb p1 && negb p2)).

(** An exception that says what went wrong: it carries a message, and the
    message is not empty. *)
Definition descriptive (e : exn) : Prop :=
  ∃ msg, exn_message e = Some msg ∧ msg ≠ "".

Definition reverse_edge (e : edge) : edge := (e.1.2, e.1.1, neg3 e.2).

Definition edge_eqb (e f : edge) : bool :=
  (e.1.1 =? f.1.1) && (e.1.2 =? f.1.2) && vec3_eqb e.2 f.2.

(** [closed_under_reversal], as a test on a given list. *)
Definition closed_under_reversalb (es : list edge) : bool :=
  forallb (λ e, existsb (edge_eqb (reverse_edge e)) es) es.


Section Observations.
Context {num : Type} `{L : Libs num}.

Definition host_pos (pos : pos_arg num) : list (vec3 num) :=
  (resolve_pos pos).1.1.
Definition out_device (pos : pos_arg num) : device := (resolve_pos pos).1.2.
Definition out_dtype (pos : pos_arg num) : dtype := (resolve_pos pos).2.

(** The cell as passed in; the zero matrix when none was passed. *)
Definition raw_cell (cell : cell_arg num) : mat3 num :=
  match cell with
  | CellTensor c => t_data c
  | CellArray a => a
  | CellNone => ((zero, zero, zero), (zero, zero, zero), (zero, zero, zero))
  end.

(** The returned cell tensor: the cell as passed in, in the dtype and on
    the device of the outputs. *)
Definition cell_tensor_of (pos : pos_arg num) (cell : cell_arg num)
  : tensor (mat3 num) :=
  Tensor (out_device pos) (out_dtype pos)
    (mat3_map (to_dtype (out_dtype pos)) (raw_cell cell)).

(** What happens before the dispatch on [NL]. *)
Definition preamble (pos : pos_arg num) : list event :=
  events (warn_round_trip (out_device pos)) ++ [Call ase_complete_cell].

(** The dispatch as the function runs it on its arguments. *)
Definition dispatch_call (pos : pos_arg num) (r_max : num)
    (self_interaction strict_self_interaction : bool)
    (cell : cell_arg num) (pbc : pbc_arg) (NL : string) : M (option ijS) :=
  nl_dispatch NL self_interaction strict_self_interaction
    (normalize_pbc pbc) (complete_cell (raw_cell cell)) (host_pos pos) r_max.

(** The list the ase primitive returns for these arguments. *)
Definition ase_call (pos : pos_arg num) (r_max : num)
    (strict_self_interaction : bool) (cell : cell_arg num) (pbc : pbc_arg)
  : ijS :=
  ase_nl (normalize_pbc pbc) (complete_cell (raw_cell cell)) (host_pos pos)
    r_max strict_self_interaction.



End Observations.


(** ** nequip.scripts.evaluate: which frames are evaluated, and by whom

    The index arithmetic of [main] in [src/nequip/scripts/evaluate.py]: the
    test indexes are repeated, divided between the ranks of a distributed
    run, and walked through in batches. *)
Module Evaluate.

(** A bound of a Python slice with step 1 on a sequence of length [len]:
    a negative bound counts from the end, and the bound is then clamped
    into [0, len]. *)
Definition slice_bound (len i : Z) : Z :=
  if i <? 0 then Z.max (i + len) 0 else Z.min i len.

(** [a[start:stop]], on lists and on 1-d tensors alike. *)
Definition py_slice {A} (a : list A) (start stop : Z) : list A :=
  let len := Z.of_nat (length a) in
  let lo := slice_bound len start in
  let hi := slice_bound len stop in
  take (Z.to_nat (hi - lo)) (drop (Z.to_nat lo) a).

(** Line 364, [test_idcs.tile((args.repeat,))]: the tensor [repeat] times
    over; torch refuses a negative count ([None]). *)
Definition tile {A} (test_idcs : list A) (repeat : Z) : option (list A) :=
  if repeat <? 0 then None
  else Some (concat (replicate (Z.to_nat repeat) test_idcs)).

(** [int(math.ceil(a / b))] for [b > 0].  The quotient is a float; for
    [a] below 2^53, as any tensor length is, it rounds to a float with the
    same ceiling. *)
Definition ceil_div (a b : Z) : Z := - (- a / b).

(** Lines 398-405, for the process of rank [rank] among [world_size]:
    [(is_rank_zero, test_idcs)] as they stand after the block.
    [distributed] is the truth value of [args.distributed]. *)
Definition rank_split (distributed : bool) (rank world_size : Z)
    (test_idcs : list Z) : bool * list Z :=
  if distributed then
    let is_rank_zero := rank =? 0 in
    let n_per_rank :=
      ceil_div (Z.of_nat (length test_idcs)) world_size in
    (is_rank_zero,
     py_slice test_idcs (rank * n_per_rank) ((rank + 1) * n_per_rank))
  else (true, test_idcs).

(** Lines 440-446 and 492: the [while True] loop, from the value of
    [batch_i] on.  The result lists the index batches the loop body is run
    on, in order; [None] when the fuel ends before the loop does.  What the
    body does with a batch (collate, run the model, write, accumulate) is
    taken to return. *)
Fixpoint batch_loop (fuel : nat) (test_idcs : list Z)
    (batch_size batch_i : Z) : option (list (list Z)) :=
  match fuel with
  | O => None
  | S fuel' =>
      let this_batch_test_indexes :=
        py_slice test_idcs (batch_i * batch_size)
          ((batch_i + 1) * batch_size) in
      if (length this_batch_test_indexes =? 0)%nat then Some []
      else cons this_batch_test_indexes
             <$> batch_loop fuel' test_idcs batch_size (batch_i + 1)
  end.

(** The frames one rank evaluates, batch by batch: lines 363-364, 398-405
    and the loop, started at [batch_i = 0]. *)
Definition evaluated_by_rank (fuel : nat) (test_idcs : list Z)
    (repeat batch_size : Z) (distributed : bool) (rank world_size : Z)
  : option (list (list Z)) :=
  tiled ← tile test_idcs repeat;
  batch_loop fuel (rank_split distributed rank world_size tiled).2
    batch_size 0.

(** *** Arguments: defaults and validation *)

Definition ORIGINAL_DATASET_PREFIX : string := "original_dataset_".
Definition ORIGINAL_DATASET_INDEX_KEY : string :=
  ORIGINAL_DATASET_PREFIX +:+ "index".

(** [s.split(sep)] for a separator of one character. *)
Fixpoint split_on (sep : Ascii.ascii) (s : string) : list string :=
  match s with
  | EmptyString => [EmptyString]
  | String c s' =>
      if Ascii.eqb c sep then EmptyString :: split_on sep s'
      else match split_on sep s' with
           | h :: t => String c h :: t
           | [] => [String c EmptyString]
           end
  end.

(** [sep.join(names)] *)
Fixpoint join_with (sep : string) (names : list string) : string :=
  match names with
  | [] => EmptyString
  | [x] => x
  | x :: rest => x +:+ sep +:+ join_with sep rest
  end.

Definition comma : Ascii.ascii := Ascii.ascii_of_nat 44.

(** Lines 232-235: [[e for e in s.split(",") if e != ""]]. *)
Definition field_names (s : string) : list string :=
  List.filter (λ e, negb (String.eqb e "")) (split_on comma s).

(** The character [c] occurs in [s]. *)
Fixpoint has_char (c : Ascii.ascii) (s : string) : bool :=
  match s with
  | EmptyString => false
  | String c' s' => Ascii.eqb c' c || has_char c s'
  end.

(** A field name: not empty, and without a comma. *)
Definition is_field_name (e : string) : Prop :=
  e ≠ "" ∧ has_char comma e = false.

(** The parsed arguments this part of [main] reads. *)
Record args (path : Type) := Args
  { train_dir : option path;
    model : option path;
    dataset_config : option path;
    metrics_config : option string;
    test_indexes : option path;
    output : option path;
    output_fields : string;
    output_fields_from_original_dataset : string }.
Arguments Args {path} _ _ _ _ _ _ _ _.
Arguments train_dir {path} _.
Arguments model {path} _.
Arguments dataset_config {path} _.
Arguments metrics_config {path} _.
Arguments test_indexes {path} _.
Arguments output {path} _.
Arguments output_fields {path} _.
Arguments output_fields_from_original_dataset {path} _.

(** [args.metrics_config] after the defaults: still the string of the
    command line, or the path put in its place. *)
Inductive str_or_path (path : Type) :=
| IsStr (s : string)
| IsPath (p : path).
Arguments IsStr {path} _.
Arguments IsPath {path} _.

(** The locals [train_idcs] and [val_idcs]: not assigned, assigned [None],
    or assigned the two sets. *)
Inductive idcs_binding :=
| Unbound
| BoundNone
| BoundSets (train_idcs val_idcs : gset Z).

(** What is written out, when [--output] is given:
    [args.output_fields], [args.output_fields_from_original_dataset] and
    [ase_all_fields]. *)
Record output_plan := OutputPlan
  { plan_fields : list string;
    plan_original_fields : list string;
    ase_all_fields : list string;
    registers_prefix : bool }.

(** The state after line 250. *)
Record resolved (path : Type) := Resolved
  { r_dataset_config : path;
    r_metrics_config : option path;
    r_model : path;
    do_metrics : bool;
    dataset_is_from_training : bool;
    idcs : idcs_binding;
    plan : option output_plan }.
Arguments Resolved {path} _ _ _ _ _ _ _.
Arguments r_dataset_config {path} _.
Arguments r_metrics_config {path} _.
Arguments r_model {path} _.
Arguments do_metrics {path} _.
Arguments dataset_is_from_training {path} _.
Arguments idcs {path} _.
Arguments plan {path} _.

(** Where the test indexes come from (lines 321-361). *)
Inductive test_source :=
| Automatic (train_idcs val_idcs : gset Z)
| AllFrames
| FromFile.

Section Arguments.
(** [pathlib.Path]: [p / name], [Path(s)], [p.suffix]; and the two index
    sets read from [trainer.pth] by [torch.load], which is taken to
    return. *)
Context {path : Type}.
Variable joinpath : path → string → path.
Variable Path : string → path.
Variable suffix : path → string.
Variable load_trainer : path → gset Z * gset Z.

(** Lines 193-250.  A [Path] is always true as a condition, so
    [if args.train_dir:] asks whether the option was given. *)
Definition resolve_args (a : args path) : M (resolved path) :=
  let '(a_dataset_config, dataset_is_from_training, a_metrics_config,
        a_model, bound) :=
    match train_dir a with
    | Some d =>
        let '(dc, from_training) :=
          match dataset_config a with
          | None => (Some (joinpath d "config.yaml"), true)
          | Some c => (Some c, false)
          end in
        let mc :=
          match metrics_config a with
          | None => Some (IsPath (joinpath d "config.yaml"))
          | Some s => Some (IsStr s)
          end in
        let m :=
          match model a with
          | None => Some (joinpath d "best_model.pth")
          | Some m => Some m
          end in
        let bound :=
          match test_indexes a with
          | None =>
              let trainer := load_trainer (joinpath d "trainer.pth") in
              BoundSets trainer.1 trainer.2
          | Some _ => BoundNone
          end in
        (dc, from_training, mc, m, bound)
    | None =>
        (dataset_config a, false, IsStr <$> metrics_config a, model a,
         Unbound)
    end in
  let a_metrics_config :=
    match a_metrics_config with
    | Some (IsStr s) => if String.eqb s "None" then None else Some (Path s)
    | Some (IsPath p) => Some p
    | None => None
    end in
  let do_metrics := bool_decide (is_Some a_metrics_config) in
  match a_dataset_config with
  | None =>
      mthrow (ValueError "--dataset-config or --train-dir must be provided")
  | Some a_dataset_config =>
      (if negb do_metrics && bool_decide (output a = None)
       then mthrow (ValueError "Nothing to do! Must provide at least one of --metrics-config, --train-dir (to use training config for metrics), or --output")
       else mret tt) ;;
      match a_model with
      | None => mthrow (ValueError "--model or --train-dir must be provided")
      | Some a_model =>
          plan ←
            match output a with
            | Some o =>
                (if negb (String.eqb (suffix o) ".xyz")
                 then mthrow (ValueError "Only .xyz format for `--output` is supported.")
                 else mret tt) ;;
                let original :=
                  field_names (output_fields_from_original_dataset a) in
                let fields := field_names (output_fields a) in
                let ase_all_fields :=
                  fields
                  ++ map (λ e, ORIGINAL_DATASET_PREFIX +:+ e) original
                  ++ [ORIGINAL_DATASET_INDEX_KEY] in
                mret (Some (OutputPlan fields original ase_all_fields
                              (0 <? length original)%nat))
            | None =>
                py_assert (String.eqb (output_fields a) "") None ;;
                mret None
            end ;
          mret (Resolved a_dataset_config a_metrics_config a_model
                  do_metrics dataset_is_from_training bound plan)
      end
  end.

(** Lines 321-325, 346 and 352: the choice between the three sources,
    reading [train_idcs] where the condition gets that far. *)
Definition choose_test_source (a : args path) (r : resolved path)
  : M test_source :=
  if bool_decide (test_indexes a = None) then
    if dataset_is_from_training r then
      match idcs r with
      | Unbound => mthrow (UnboundLocalError "train_idcs")
      | BoundNone => mret AllFrames
      | BoundSets train_idcs val_idcs =>
          mret (Automatic train_idcs val_idcs)
      end
    else mret AllFrames
  else mret FromFile.

End Arguments.

(** Lines 326-341: the automatic test set of a dataset of [n] frames.
    [list_of_set] is [list(...)] on a set of integers, in whatever order it
    walks the set. *)
Definition automatic_test_set (list_of_set : gset Z → list Z)
    (n : nat) (dataset_is_validation : bool)
    (train_idcs val_idcs : gset Z) : M (list Z) :=
  let all_idcs : gset Z := list_to_set (Z.of_nat <$> seq 0 n) in
  test_idcs ←
    (if dataset_is_validation
     then mret (list_of_set (all_idcs ∖ val_idcs))
     else
       let test_idcs := list_of_set (all_idcs ∖ train_idcs ∖ val_idcs) in
       py_assert
         (bool_decide ((list_to_set test_idcs : gset Z) ## train_idcs))
         None ;;
       mret test_idcs) ;
  py_assert (bool_decide ((list_to_set test_idcs : gset Z) ## val_idcs))
    None ;;
  mret test_idcs.

(** *** Sample paths

    Paths as plain strings, to run the argument handling on sample command
    lines: [p / name] puts a slash between, and the suffix is the text
    from the last dot on, which is what [Path.suffix] gives for the file
    names used below. *)
Definition sample_joinpath (p name : string) : string :=
  p +:+ "/" +:+ name.

Fixpoint from_last_dot (s : string) : option string :=
  match s with
  | EmptyString => None
  | String c s' =>
      match from_last_dot s' with
      | Some t => Some t
      | None =>
          if Ascii.eqb c (Ascii.ascii_of_nat 46) then Some (String c s')
          else None
      end
  end.

Definition sample_suffix (p : string) : string :=
  default "" (from_last_dot p).

(** A training session that trained on frames 0-2 and validated on 3. *)
Definition sample_trainer (p : string) : gset Z * gset Z :=
  ({[0; 1; 2]}, {[3]}).

Definition sample_resolve_args : args string → M (resolved string) :=
  resolve_args sample_joinpath id sample_suffix sample_trainer.

End Evaluate.

(** ** Proof steps *)

(** Run the monad's operations. *)
Ltac py_step :=
  cbv [mbind mret mthrow py_bind py_ret py_raise emit load_ijS]; simpl.

(** Open the function on each kind of [pos] and [cell], given the outcome of
    the dispatch as the hypothesis on top of the goal. *)
Ltac run_cases pos cell :=
  unfold dispatch_call, neighbor_list_and_relative_vec, preamble,
    host_pos, out_device, out_dtype, warn_round_trip, cell_tensor_of,
    eliminate_self_edges;
  destruct pos as [[d dt p]|p], cell as [[cd cdt c]|c|]; simpl;
  intros ->;
  try destruct (String.eqb (dev_type d) "cpu"); py_step.

(** ** The filter on columns is the filter on rows *)

Lemma rows_of_columns (r : ijS) : rows (col_i r) (col_j r) (col_S r) = r.
Proof.
  unfold rows, col_i, col_j, col_S.
  induction r as [|[[i j] S] r IH]; simpl; [reflexivity|].
  f_equal. exact IH.
Qed.

Lemma keep_mask_cons (e : edge) (r : ijS) :
  keep_mask (e :: r) = negb (trivial_self e) :: keep_mask r.
Proof. reflexivity. Qed.

Lemma take_keep_mask (r : ijS) :
  rows (np_take (col_i r) (keep_mask r))
       (np_take (col_j r) (keep_mask r))
       (np_take (col_S r) (keep_mask r)) = remove_trivial r.
Proof.
  induction r as [|e r IH]; [reflexivity|].
  rewrite keep_mask_cons. unfold remove_trivial in *. simpl.
  destruct (trivial_self e); simpl.
  - exact IH.
  - unfold rows in *. simpl. rewrite IH.
    destruct e as [[i j] S]. reflexivity.
Qed.

Lemma np_any_keep_mask (r : ijS) :
  np_any (keep_mask r) = negb (forallb trivial_self r).
Proof.
  induction r as [|e r IH]; [reflexivity|].
  rewrite keep_mask_cons. unfold np_any in *. simpl. rewrite IH.
  destruct (trivial_self e); reflexivity.
Qed.

Lemma remove_trivial_nil (r : ijS) :
  remove_trivial r = [] ↔ forallb trivial_self r = true.
Proof.
  unfold remove_trivial.
  induction r as [|e r IH]; simpl; [tauto|].
  destruct (trivial_self e); simpl; [exact IH|].
  split; discriminate.
Qed.

Lemma elem_of_remove_trivial (e : edge) (r : ijS) :
  e ∈ remove_trivial r ↔ e ∈ r ∧ trivial_self e = false.
Proof.
  unfold remove_trivial. rewrite !list_elem_of_In, filter_In.
  rewrite negb_true_iff. reflexivity.
Qed.

Lemma trivial_self_spec (s t : Z) (S : vec3 Z) :
  trivial_self (s, t, S) = true ↔ s = t ∧ S = (0, 0, 0).
Proof.
  unfold trivial_self. destruct S as [[a b] c]. simpl.
  rewrite !andb_true_iff, !Z.eqb_eq.
  split.
  - intros (-> & (-> & ->) & ->). split; reflexivity.
  - intros [-> [= -> -> ->]]. repeat split; reflexivity.
Qed.

Lemma opp_eqb_0 (x : Z) : (- x =? 0) = (x =? 0).
Proof. destruct x; reflexivity. Qed.

Lemma trivial_self_reverse (s t : Z) (S : vec3 Z) :
  trivial_self (t, s, neg3 S) = trivial_self (s, t, S).
Proof.
  unfold trivial_self, neg3. destruct S as [[a b] c]. simpl.
  rewrite (Z.eqb_sym t s), !opp_eqb_0. reflexivity.
Qed.

(** ** The shape of a run *)

Section Runs.
Context {num : Type} `{L : Libs num}.

Implicit Types (g : globals) (pos : pos_arg num) (r_max : num)
  (cell : cell_arg num) (pbc : pbc_arg) (NL : string) (raw : ijS).

Lemma preamble_cases pos :
  preamble pos = [Call ase_complete_cell] ∨
  preamble pos = [Warn gpu_warning; Call ase_complete_cell].
Proof.
  unfold preamble, warn_round_trip.
  destruct (negb _); [right | left]; reflexivity.
Qed.

Lemma run_raise g pos r_max si ssi cell pbc NL l e :
  dispatch_call pos r_max si ssi cell pbc NL = (l, Raise e) →
  neighbor_list_and_relative_vec g pos r_max si ssi cell pbc NL
  = (preamble pos ++ l, Raise e).
Proof. run_cases pos cell; reflexivity. Qed.

Lemma run_unbound g pos r_max si ssi cell pbc NL l :
  dispatch_call pos r_max si ssi cell pbc NL = (l, Return None) →
  neighbor_list_and_relative_vec g pos r_max si ssi cell pbc NL
  = (preamble pos ++ l, Raise (UnboundLocalError "first_idex")).
Proof.
  run_cases pos cell; destruct si; py_step; rewrite ?app_nil_r; reflexivity.
Qed.

Lemma run_unfiltered g pos r_max ssi cell pbc NL l raw :
  dispatch_call pos r_max true ssi cell pbc NL = (l, Return (Some raw)) →
  neighbor_list_and_relative_vec g pos r_max true ssi cell pbc NL
  = (preamble pos ++ l,
     Return (build_output (out_device pos) (out_dtype pos)
               (col_i raw) (col_j raw) (col_S raw)
               (cell_tensor_of pos cell))).
Proof. run_cases pos cell; rewrite ?app_nil_r; reflexivity. Qed.

Lemma run_filtered g pos r_max ssi cell pbc NL l raw :
  dispatch_call pos r_max false ssi cell pbc NL = (l, Return (Some raw)) →
  neighbor_list_and_relative_vec g pos r_max false ssi cell pbc NL
  = (preamble pos ++ l,
     if _ERROR_ON_NO_EDGES g && forallb trivial_self raw
     then Raise (ValueError (no_edges_message r_max))
     else Return (build_output (out_device pos) (out_dtype pos)
                    (np_take (col_i raw) (keep_mask raw))
                    (np_take (col_j raw) (keep_mask raw))
                    (np_take (col_S raw) (keep_mask raw))
                    (cell_tensor_of pos cell))).
Proof.
  run_cases pos cell; fold (keep_mask raw);
    rewrite np_any_keep_mask, negb_involutive;
    destruct (_ERROR_ON_NO_EDGES g && forallb trivial_self raw);
    py_step; rewrite ?app_nil_r; reflexivity.
Qed.

Lemma out_edges_build d dt raw ct :
  out_edges (build_output (num := num) d dt
               (col_i raw) (col_j raw) (col_S raw) ct) = raw.
Proof. unfold out_edges, build_output. simpl. apply rows_of_columns. Qed.

Lemma out_edges_build_filtered d dt raw ct :
  out_edges (build_output (num := num) d dt
               (np_take (col_i raw) (keep_mask raw))
               (np_take (col_j raw) (keep_mask raw))
               (np_take (col_S raw) (keep_mask raw)) ct)
  = remove_trivial raw.
Proof. unfold out_edges, build_output. simpl. apply take_keep_mask. Qed.

(** The dispatch ends in one of three ways. *)
Lemma dispatch_outcomes pos r_max si ssi cell pbc NL :
  let d := dispatch_call pos r_max si ssi cell pbc NL in
  (∃ e, result d = Raise e) ∨ result d = Return None ∨
  (∃ raw, result d = Return (Some raw)).
Proof.
  simpl. destruct (dispatch_call _ _ _ _ _ _ _) as [l [e|[raw|]]]; simpl;
    eauto.
Qed.

End Runs.

(** ** The dispatch, backend by backend *)

Section Dispatch.
Context {num : Type} `{L : Libs num}.

Implicit Types (g : globals) (pos : pos_arg num) (r_max : num)
  (cell : cell_arg num) (pbc : pbc_arg) (NL : string) (raw : ijS).

Lemma dispatch_ase pos r_max si ssi cell pbc :
  dispatch_call pos r_max si ssi cell pbc "ase"
  = ([Call ase_primitive_neighbor_list],
     Return (Some (ase_call pos r_max ssi cell pbc))).
Proof. reflexivity. Qed.

Lemma dispatch_matscipy pos r_max si ssi cell pbc :
  dispatch_call pos r_max si ssi cell pbc "matscipy"
  = if ssi && negb si
    then ([Call matscipy_neighbour_list],
          Return (Some (matscipy_nl (normalize_pbc pbc)
                          (complete_cell (raw_cell cell))
                          (host_pos pos) r_max)))
    else ([], Raise (AssertionError None)).
Proof.
  unfold dispatch_call, nl_dispatch. simpl.
  destruct (ssi && negb si); reflexivity.
Qed.

Lemma dispatch_vesin_assert pos r_max si ssi cell pbc :
  ssi && negb si = false →
  dispatch_call pos r_max si ssi cell pbc "vesin"
  = ([], Raise (AssertionError None)).
Proof.
  unfold dispatch_call, nl_dispatch. simpl. intros ->. reflexivity.
Qed.

Lemma dispatch_vesin_mixed pos r_max cell pbc :
  mixed_pbc (normalize_pbc pbc) = true →
  dispatch_call pos r_max false true cell pbc "vesin"
  = ([], Raise (ValueError mixed_pbc_message)).
Proof.
  unfold dispatch_call, nl_dispatch. simpl.
  destruct (normalize_pbc pbc) as [[[] []] []]; simpl;
    (discriminate || reflexivity).
Qed.

Lemma dispatch_vesin_uniform pos r_max cell pbc :
  mixed_pbc (normalize_pbc pbc) = false →
  dispatch_call pos r_max false true cell pbc "vesin"
  = match vesin_nl with
    | None => ([], Raise (NameError "vesin_nl"))
    | Some compute =>
        ([Call vesin_compute],
         Return (Some (compute r_max (host_pos pos)
                         (complete_cell (raw_cell cell))
                         (normalize_pbc pbc).1.1)))
    end.
Proof.
  unfold dispatch_call, nl_dispatch. simpl.
  destruct (normalize_pbc pbc) as [[[] []] []]; simpl;
    try discriminate; intros _; destruct vesin_nl; reflexivity.
Qed.

Lemma dispatch_unknown pos r_max si ssi cell pbc NL :
  string_in NL backends = false →
  dispatch_call pos r_max si ssi cell pbc NL = ([], Return None).
Proof.
  unfold string_in, backends. simpl. rewrite !orb_false_iff.
  intros (Hase & Hmat & Hves & _).
  unfold dispatch_call, nl_dispatch. rewrite Hase, Hmat, Hves. reflexivity.
Qed.

(** The asserts inside the function carry no message. *)
Lemma dispatch_no_assert_message pos r_max si ssi cell pbc NL l msg :
  dispatch_call pos r_max si ssi cell pbc NL
  ≠ (l, Raise (AssertionError (Some msg))).
Proof.
  unfold dispatch_call, nl_dispatch.
  destruct (normalize_pbc pbc) as [[[] []] []], (String.eqb NL "vesin"),
    (String.eqb NL "matscipy"), (String.eqb NL "ase"), ssi, si, vesin_nl;
    simpl; discriminate.
Qed.

(** The three ways the dispatch can raise. *)
Lemma dispatch_raises pos r_max si ssi cell pbc NL l e :
  dispatch_call pos r_max si ssi cell pbc NL = (l, Raise e) →
  l = [] ∧ (e = AssertionError None ∨ e = ValueError mixed_pbc_message
            ∨ e = NameError "vesin_nl").
Proof.
  unfold dispatch_call, nl_dispatch.
  destruct (normalize_pbc pbc) as [[[] []] []], (String.eqb NL "vesin"),
    (String.eqb NL "matscipy"), (String.eqb NL "ase"), ssi, si, vesin_nl;
    simpl; intros [= <- <-] || discriminate; auto.
Qed.

(** A known backend name always takes a branch. *)
Lemma dispatch_known pos r_max si ssi cell pbc NL l :
  string_in NL backends = true →
  dispatch_call pos r_max si ssi cell pbc NL ≠ (l, Return None).
Proof.
  unfold string_in, backends, dispatch_call, nl_dispatch. simpl.
  destruct (normalize_pbc pbc) as [[[] []] []], (String.eqb NL "vesin"),
    (String.eqb NL "matscipy"), (String.eqb NL "ase"), ssi, si, vesin_nl;
    simpl; discriminate.
Qed.

(** A search result is only ever produced after the search was called. *)
Lemma dispatch_found_searched pos r_max si ssi cell pbc NL l raw :
  dispatch_call pos r_max si ssi cell pbc NL = (l, Return (Some raw)) →
  ∃ f, l = [Call f] ∧ is_search (Call f) = true.
Proof.
  unfold dispatch_call, nl_dispatch.
  destruct (normalize_pbc pbc) as [[[] []] []], (String.eqb NL "vesin"),
    (String.eqb NL "matscipy"), (String.eqb NL "ase"), ssi, si, vesin_nl;
    simpl; intros [= <- <-] || discriminate; eauto.
Qed.

End Dispatch.

(** ** Module import *)

Lemma import_module_globals (environ : gmap string string) (g : globals) :
  result (import_module environ) = Return g →
  _ERROR_ON_NO_EDGES g
  = negb (String.eqb
            (lower (environ_get environ "NEQUIP_ERROR_ON_NO_EDGES" "true"))
            "false")
  ∧ string_in (_NEQUIP_NL g) backends = true.
Proof.
  unfold import_module, py_assert, string_in, backends, result.
  set (flag := lower (environ_get environ "NEQUIP_ERROR_ON_NO_EDGES" "true")).
  set (nl := lower (environ_get environ "NEQUIP_NL" "matscipy")).
  simpl.
  destruct (String.eqb_spec flag "true") as [->|_]; simpl.
  - destruct (String.eqb nl "ase" || (String.eqb nl "matscipy"
              || (String.eqb nl "vesin" || false))) eqn:Hnl; simpl.
    + intros [= <-]. simpl. split; [reflexivity | exact Hnl].
    + discriminate.
  - destruct (String.eqb flag "false"); simpl; [|discriminate].
    destruct (String.eqb nl "ase" || (String.eqb nl "matscipy"
              || (String.eqb nl "vesin" || false))) eqn:Hnl; simpl.
    + intros [= <-]. simpl. split; [reflexivity | exact Hnl].
    + discriminate.
Qed.

Lemma import_module_unknown_NL (environ : gmap string string) :
  string_in (lower (environ_get environ "NEQUIP_ERROR_ON_NO_EDGES" "true"))
    ["true"; "false"] = true →
  string_in (lower (environ_get environ "NEQUIP_NL" "matscipy")) backends
  = false →
  import_module environ
  = ([], Raise (AssertionError
                  (Some ("Unknown neighborlist NEQUIP_NL = " +:+
                         lower (environ_get environ "NEQUIP_NL" "matscipy"))))).
Proof.
  unfold import_module, py_assert, backends. intros -> ->. reflexivity.
Qed.

(** ** Events of a run *)

Section Events.
Context {num : Type} `{L : Libs num}.

Implicit Types (g : globals) (pos : pos_arg num) (r_max : num)
  (cell : cell_arg num) (pbc : pbc_arg) (NL : string) (raw : ijS).

Lemma events_run g pos r_max si ssi cell pbc NL :
  events (neighbor_list_and_relative_vec g pos r_max si ssi cell pbc NL)
  = preamble pos ++ events (dispatch_call pos r_max si ssi cell pbc NL).
Proof.
  destruct (dispatch_call pos r_max si ssi cell pbc NL)
    as [l [e|[raw|]]] eqn:Hd.
  - rewrite (run_raise _ _ _ _ _ _ _ _ _ _ Hd). reflexivity.
  - destruct si.
    + rewrite (run_unfiltered _ _ _ _ _ _ _ _ _ Hd). reflexivity.
    + rewrite (run_filtered _ _ _ _ _ _ _ _ _ Hd). reflexivity.
  - rewrite (run_unbound _ _ _ _ _ _ _ _ _ Hd). reflexivity.
Qed.

Lemma preamble_no_search pos :
  forallb (λ ev, negb (is_search ev)) (preamble pos) = true.
Proof. destruct (preamble_cases pos) as [-> | ->]; reflexivity. Qed.

Lemma no_search_preamble {A} pos (r : outcome A) :
  no_search (preamble pos, r).
Proof. apply preamble_no_search. Qed.



(** X19: a call that leaves [NL] at its default, the module global of a
    module that was imported, always takes a backend branch: it never
    fails on an unassigned local. *)
Lemma default_NL_bound (environ : gmap string string)
    g pos r_max si ssi cell pbc :
  result (import_module environ) = Return g →
  ∀ name,
    result (neighbor_list_and_relative_vec_default_NL g pos r_max si ssi
              cell pbc) ≠ Raise (UnboundLocalError name).
Proof.
  intros Himp name. apply import_module_globals in Himp as [_ HNL].
  unfold neighbor_list_and_relative_vec_default_NL.
  destruct (dispatch_call pos r_max si ssi cell pbc (_NEQUIP_NL g))
    as [l [e|[raw|]]] eqn:Hd.
  - rewrite (run_raise _ _ _ _ _ _ _ _ _ _ Hd). simpl.
    apply dispatch_raises in Hd as [_ [-> | [-> | ->]]]; discriminate.
  - destruct si.
    + rewrite (run_unfiltered _ _ _ _ _ _ _ _ _ Hd). discriminate.
    + rewrite (run_filtered _ _ _ _ _ _ _ _ _ Hd). simpl.
      destruct (_ && _); discriminate.
  - exfalso. exact (dispatch_known _ _ _ _ _ _ _ _ HNL Hd).
Qed.

End Events.

Lemma closed_under_reversalb_sound (es : list edge) :
  closed_under_reversalb es = true → closed_under_reversal es.
Proof.
  unfold closed_under_reversalb, closed_under_reversal.
  rewrite forallb_forall. intros Hall s t S Hin.
  apply list_elem_of_In in Hin. specialize (Hall _ Hin).
  apply existsb_exists in Hall as ([[s' t'] [[a b] c]] & Hin' & Heq).
  apply list_elem_of_In.
  unfold edge_eqb, reverse_edge, neg3 in Heq.
  destruct S as [[x y] z]. simpl in Heq.
  rewrite !andb_true_iff, !Z.eqb_eq in Heq.
  destruct Heq as [[Ht Hs] [[Hx Hy] Hz]]. simpl.
  rewrite Ht, Hs, Hx, Hy, Hz. exact Hin'.
Qed.

(** ** Properties of the function *)

Section Properties.
Context {num : Type} `{L : Libs num}.

Implicit Types (g : globals) (pos : pos_arg num) (r_max : num)
  (cell : cell_arg num) (pbc : pbc_arg) (NL : string) (raw : ijS)
  (out : nl_output num).

(** C1: a call with [self_interaction=False] that returns, returns no
    edge whose source equals its target and whose shift is (0,0,0),
    whatever the backend, the periodic flags and the cell. *)
Theorem no_trivial_self_edge_returned
    g pos r_max ssi cell pbc NL log out :
  neighbor_list_and_relative_vec g pos r_max false ssi cell pbc NL
  = (log, Return out) →
  ∀ s t S, (s, t, S) ∈ out_edges out → ¬ (s = t ∧ S = (0, 0, 0)).
Proof.
  destruct (dispatch_call pos r_max false ssi cell pbc NL)
    as [l [e|[raw|]]] eqn:Hd.
  - rewrite (run_raise _ _ _ _ _ _ _ _ _ _ Hd). discriminate.
  - rewrite (run_filtered _ _ _ _ _ _ _ _ _ Hd).
    destruct (_ERROR_ON_NO_EDGES g && forallb trivial_self raw);
      [discriminate|].
    intros [= _ <-] s t S. rewrite out_edges_build_filtered.
    rewrite elem_of_remove_trivial. intros [_ Hnt] Htriv.
    apply (proj2 (trivial_self_spec s t S)) in Htriv.
    exact (eq_true_false_abs _ Htriv Hnt).
  - rewrite (run_unbound _ _ _ _ _ _ _ _ _ Hd). discriminate.
Qed.

(** C2, as the code has it: the returned cell tensor is 3x3 and holds the
    cell as it was passed in (all zeros when none was passed), converted
    to the dtype and placed on the device of the outputs.  The completed
    cell goes to the neighbor search only. *)
Theorem returned_cell_is_input_cell
    g pos r_max si ssi cell pbc NL log out :
  neighbor_list_and_relative_vec g pos r_max si ssi cell pbc NL
  = (log, Return out) →
  cell_out out
  = Tensor (out_device pos) (out_dtype pos)
      (mat3_map (to_dtype (out_dtype pos)) (raw_cell cell)).
Proof.
  fold (cell_tensor_of pos cell).
  destruct (dispatch_call pos r_max si ssi cell pbc NL)
    as [l [e|[raw|]]] eqn:Hd.
  - rewrite (run_raise _ _ _ _ _ _ _ _ _ _ Hd). discriminate.
  - destruct si.
    + rewrite (run_unfiltered _ _ _ _ _ _ _ _ _ Hd).
      intros [= _ <-]. reflexivity.
    + rewrite (run_filtered _ _ _ _ _ _ _ _ _ Hd).
      destruct (_ERROR_ON_NO_EDGES g && forallb trivial_self raw);
        [discriminate|].
      intros [= _ <-]. reflexivity.
  - rewrite (run_unbound _ _ _ _ _ _ _ _ _ Hd). discriminate.
Qed.

(** C3: with [self_interaction=False], when the search was reached and no
    edge is left once the same-image self-edges are removed, the call
    raises a ValueError whose message contains the printed [r_max];
    unless the environment set NEQUIP_ERROR_ON_NO_EDGES to "false" (in
    any letter case), and then the call returns an empty edge list. *)
Theorem no_edges_error
    (environ : gmap string string) g pos r_max ssi cell pbc NL l raw :
  result (import_module environ) = Return g →
  dispatch_call pos r_max false ssi cell pbc NL = (l, Return (Some raw)) →
  remove_trivial raw = [] →
  let run :=
    neighbor_list_and_relative_vec g pos r_max false ssi cell pbc NL in
  if String.eqb
       (lower (environ_get environ "NEQUIP_ERROR_ON_NO_EDGES" "true"))
       "false"
  then ∃ out, result run = Return out ∧ out_edges out = []
  else ∃ msg, result run = Raise (ValueError msg)
              ∧ names_value (fmt r_max) msg.
Proof.
  intros Himp Hd Hnone run. subst run.
  apply import_module_globals in Himp as [Hflag _].
  rewrite (run_filtered _ _ _ _ _ _ _ _ _ Hd), Hflag.
  pose proof Hnone as Hall. apply remove_trivial_nil in Hall.
  rewrite Hall.
  destruct (String.eqb _ "false"); simpl.
  - eexists. split; [reflexivity|].
    rewrite out_edges_build_filtered. exact Hnone.
  - eexists. split; [reflexivity|].
    eexists _, _. unfold no_edges_message. reflexivity.
Qed.

(** C4, as the code has it: on matscipy and vesin, a call with
    [self_interaction=True] or [strict_self_interaction=False] stops at a
    bare [assert]: an AssertionError without message, raised before any
    neighbor search.  With [strict_self_interaction=True] and
    [self_interaction=False] the assertion passes: matscipy runs its
    search, and vesin runs its search once its own check on the periodic
    flags has passed and the library could be imported. *)
Theorem restricted_backends_assert g pos r_max si ssi cell pbc NL :
  NL = "matscipy" ∨ NL = "vesin" →
  let run := neighbor_list_and_relative_vec g pos r_max si ssi cell pbc NL in
  (si = true ∨ ssi = false →
     run = (preamble pos, Raise (AssertionError None)) ∧ no_search run) ∧
  (ssi = true → si = false →
     (∀ msg, result run ≠ Raise (AssertionError msg)) ∧
     (NL = "matscipy" → Call matscipy_neighbour_list ∈ events run) ∧
     (NL = "vesin" → mixed_pbc (normalize_pbc pbc) = false →
      is_Some vesin_nl → Call vesin_compute ∈ events run)).
Proof.
  intros HNL run. subst run. split.
  - intros Hflags.
    assert (Hc : ssi && negb si = false)
      by (destruct Hflags as [-> | ->]; [apply andb_false_r | reflexivity]).
    assert (Hd : dispatch_call pos r_max si ssi cell pbc NL
                 = ([], Raise (AssertionError None))).
    { destruct HNL as [-> | ->].
      - rewrite dispatch_matscipy, Hc. reflexivity.
      - apply dispatch_vesin_assert, Hc. }
    rewrite (run_raise _ _ _ _ _ _ _ _ _ _ Hd), app_nil_r.
    split; [reflexivity | apply no_search_preamble].
  - intros -> ->. destruct HNL as [-> | ->].
    + pose proof (dispatch_matscipy pos r_max false true cell pbc) as Hd.
      simpl in Hd. repeat split.
      * rewrite (run_filtered _ _ _ _ _ _ _ _ _ Hd). simpl.
        destruct (_ && _); discriminate.
      * intros _. rewrite events_run, Hd. simpl.
        rewrite elem_of_app. right. apply list_elem_of_here.
      * discriminate.
    + destruct (mixed_pbc (normalize_pbc pbc)) eqn:Hmix.
      * pose proof (dispatch_vesin_mixed pos r_max cell pbc Hmix) as Hd.
        rewrite (run_raise _ _ _ _ _ _ _ _ _ _ Hd). simpl.
        repeat split; discriminate.
      * pose proof (dispatch_vesin_uniform pos r_max cell pbc Hmix) as Hd.
        destruct vesin_nl as [compute|] eqn:Hves.
        -- repeat split.
           ++ rewrite (run_filtered _ _ _ _ _ _ _ _ _ Hd). simpl.
              destruct (_ && _); discriminate.
           ++ discriminate.
           ++ intros _ _ _. rewrite events_run, Hd. simpl.
              rewrite elem_of_app. right. apply list_elem_of_here.
        -- rewrite (run_raise _ _ _ _ _ _ _ _ _ _ Hd). simpl.
           repeat split; try discriminate.
           intros _ _ [? [=]].
Qed.

(** C5, as the code has it: when the periodic flags differ between
    axes, vesin raises before any search (the bare AssertionError when the
    self-interaction flags are not the required ones, the ValueError on
    mixed flags otherwise).  The same call on ase is not turned away: the
    search runs, and the call returns, unless [self_interaction] is
    False, the no-edges policy is on and no edge is left after the
    filter; then it raises the no-edges ValueError. *)
Theorem mixed_pbc_vesin_and_ase g pos r_max si ssi cell pbc :
  mixed_pbc (normalize_pbc pbc) = true →
  let vesin :=
    neighbor_list_and_relative_vec g pos r_max si ssi cell pbc "vesin" in
  let ase :=
    neighbor_list_and_relative_vec g pos r_max si ssi cell pbc "ase" in
  let degenerate :=
    si = false ∧ _ERROR_ON_NO_EDGES g = true ∧
    remove_trivial (ase_call pos r_max ssi cell pbc) = [] in
  ((result vesin = Raise (AssertionError None) ∨
    result vesin = Raise (ValueError mixed_pbc_message)) ∧
   no_search vesin) ∧
  Call ase_primitive_neighbor_list ∈ events ase ∧
  ((degenerate ∧
    result ase = Raise (ValueError (no_edges_message r_max))) ∨
   (¬ degenerate ∧ ∃ out, result ase = Return out)).
Proof.
  intros Hmix vesin ase degenerate. subst vesin ase degenerate.
  repeat split.
  - destruct (ssi && negb si) eqn:Hc.
    + apply andb_true_iff in Hc as [-> Hsi].
      apply negb_true_iff in Hsi as ->.
      pose proof (dispatch_vesin_mixed pos r_max cell pbc Hmix) as Hd.
      rewrite (run_raise _ _ _ _ _ _ _ _ _ _ Hd). right. reflexivity.
    + pose proof (dispatch_vesin_assert pos r_max si ssi cell pbc Hc) as Hd.
      rewrite (run_raise _ _ _ _ _ _ _ _ _ _ Hd). left. reflexivity.
  - unfold no_search. rewrite events_run.
    destruct (ssi && negb si) eqn:Hc.
    + apply andb_true_iff in Hc as [-> Hsi].
      apply negb_true_iff in Hsi as ->.
      rewrite (dispatch_vesin_mixed pos r_max cell pbc Hmix). simpl.
      rewrite app_nil_r. apply preamble_no_search.
    + rewrite (dispatch_vesin_assert pos r_max si ssi cell pbc Hc). simpl.
      rewrite app_nil_r. apply preamble_no_search.
  - rewrite events_run, dispatch_ase. simpl.
    rewrite elem_of_app. right. apply list_elem_of_here.
  - pose proof (dispatch_ase pos r_max si ssi cell pbc) as Hd.
    destruct si.
    + right. split; [intros [[=] _]|].
      rewrite (run_unfiltered _ _ _ _ _ _ _ _ _ Hd). eauto.
    + rewrite (run_filtered _ _ _ _ _ _ _ _ _ Hd). simpl.
      destruct (_ERROR_ON_NO_EDGES g) eqn:Hg; simpl.
      * destruct (forallb trivial_self _) eqn:Hall.
        -- left. apply remove_trivial_nil in Hall. auto.
        -- right. split; [|eauto].
           intros (_ & _ & Hnil). apply remove_trivial_nil in Hnil.
           congruence.
      * right. split; [intros (_ & [=] & _) | eauto].
Qed.


(** C7: when the backend handed back a list that holds, with every pair
    (s, t, S), the pair (t, s, -S), then so does the returned edge list:
    the self-edge filter keeps this symmetry. *)
Theorem returned_edges_closed_under_reversal
    g pos r_max si ssi cell pbc NL l raw log out :
  dispatch_call pos r_max si ssi cell pbc NL = (l, Return (Some raw)) →
  closed_under_reversal raw →
  neighbor_list_and_relative_vec g pos r_max si ssi cell pbc NL
  = (log, Return out) →
  closed_under_reversal (out_edges out).
Proof.
  intros Hd Hsym. destruct si.
  - rewrite (run_unfiltered _ _ _ _ _ _ _ _ _ Hd). intros [= _ <-].
    rewrite out_edges_build. exact Hsym.
  - rewrite (run_filtered _ _ _ _ _ _ _ _ _ Hd).
    destruct (_ && _); [discriminate|]. intros [= _ <-].
    rewrite out_edges_build_filtered. intros s t S.
    rewrite !elem_of_remove_trivial, trivial_self_reverse.
    intros [Hin Hnt]. split; [apply Hsym, Hin | exact Hnt].
Qed.



(** C10: the function does not check [NL] against the set of backend
    names.  Called with a name outside {ase, matscipy, vesin}, it warns
    about a non-CPU device, completes the cell, takes no backend branch
    and then fails on the unbound local [first_idex], with no message and
    no search.  The membership check with its "Unknown neighborlist"
    message runs at import, on the lowercased NEQUIP_NL value. *)
Theorem unknown_backend_name
    (environ : gmap string string) g pos r_max si ssi cell pbc NL :
  string_in NL backends = false →
  let run := neighbor_list_and_relative_vec g pos r_max si ssi cell pbc NL in
  run = (preamble pos, Raise (UnboundLocalError "first_idex")) ∧
  no_search run ∧
  ¬ descriptive (UnboundLocalError "first_idex") ∧
  (string_in (lower (environ_get environ "NEQUIP_ERROR_ON_NO_EDGES" "true"))
     ["true"; "false"] = true →
   environ !! "NEQUIP_NL" = Some NL →
   string_in (lower NL) backends = false →
   import_module environ
   = ([], Raise (AssertionError
                   (Some ("Unknown neighborlist NEQUIP_NL = " +:+
                          lower NL))))).
Proof.
  intros HNL run. subst run.
  pose proof (dispatch_unknown pos r_max si ssi cell pbc NL HNL) as Hd.
  rewrite (run_unbound _ _ _ _ _ _ _ _ _ Hd), app_nil_r.
  repeat split.
  - apply no_search_preamble.
  - intros (msg & [=] & _).
  - intros Hflag Henv Hlow.
    rewrite (import_module_unknown_NL environ Hflag);
      unfold environ_get; rewrite Henv; simpl; [reflexivity | exact Hlow].
Qed.

End Properties.

(** ** Further properties of the function *)

Lemma np_take_length {A B} (a : list A) (b : list B) (mask : list bool) :
  length a = length b → length (np_take a mask) = length (np_take b mask).
Proof.
  revert b mask. induction a as [|x a IH]; intros [|y b] mask Hlen;
    try discriminate; [reflexivity|].
  destruct mask as [|[] mask]; simpl; auto.
Qed.



Lemma lower_ascii_idemp (c : Ascii.ascii) :
  lower_ascii (lower_ascii c) = lower_ascii c.
Proof. destruct c as [[] [] [] [] [] [] [] []]; reflexivity. Qed.

Lemma lower_idemp (s : string) : lower (lower s) = lower s.
Proof.
  induction s as [|c s IH]; simpl; [reflexivity|].
  rewrite lower_ascii_idemp, IH. reflexivity.
Qed.

Section MoreProperties.
Context {num : Type} `{L : Libs num}.

Implicit Types (g : globals) (pos : pos_arg num) (r_max : num)
  (cell : cell_arg num) (pbc : pbc_arg) (NL : string) (raw : ijS)
  (out : nl_output num).

(** X1: whatever is returned has the shapes [2, E], [E, 3] and [3, 3] for
    one E: the two rows of [edge_index] and the shift array have the same
    length.  [edge_index] is int64; all three tensors are on the device
    resolved from [pos], and the shifts and the cell are in the dtype
    resolved from [pos]. *)
Theorem output_shapes_and_placement g pos r_max si ssi cell pbc NL log out :
  neighbor_list_and_relative_vec g pos r_max si ssi cell pbc NL
  = (log, Return out) →
  length (t_data (edge_index out)).1 = length (t_data (edge_index out)).2 ∧
  length (t_data (edge_index out)).1 = length (t_data (edge_cell_shift out)) ∧
  t_dtype (edge_index out) = int64 ∧
  t_device (edge_index out) = out_device pos ∧
  t_device (edge_cell_shift out) = out_device pos ∧
  t_device (cell_out out) = out_device pos ∧
  t_dtype (edge_cell_shift out) = out_dtype pos ∧
  t_dtype (cell_out out) = out_dtype pos.
Proof.
  destruct (dispatch_call pos r_max si ssi cell pbc NL)
    as [l [e|[raw|]]] eqn:Hd.
  - rewrite (run_raise _ _ _ _ _ _ _ _ _ _ Hd). discriminate.
  - destruct si.
    + rewrite (run_unfiltered _ _ _ _ _ _ _ _ _ Hd). intros [= _ <-].
      simpl. unfold col_i, col_j, col_S. rewrite !length_map.
      repeat split.
    + rewrite (run_filtered _ _ _ _ _ _ _ _ _ Hd).
      destruct (_ && _); [discriminate|]. intros [= _ <-]. simpl.
      repeat split.
      * apply np_take_length. unfold col_i, col_j.
        rewrite !length_map. reflexivity.
      * apply np_take_length. unfold col_i, col_S.
        rewrite !length_map. reflexivity.
  - rewrite (run_unbound _ _ _ _ _ _ _ _ _ Hd). discriminate.
Qed.


(** X3: under the default policy ([_ERROR_ON_NO_EDGES] true) a call with
    [self_interaction=False] that returns, returns at least one edge. *)
Theorem default_policy_returns_an_edge
    g pos r_max ssi cell pbc NL log out :
  _ERROR_ON_NO_EDGES g = true →
  neighbor_list_and_relative_vec g pos r_max false ssi cell pbc NL
  = (log, Return out) →
  out_edges out ≠ [] ∧
  (0 < length (t_data (edge_cell_shift out)))%nat.
Proof.
  intros Hg.
  destruct (dispatch_call pos r_max false ssi cell pbc NL)
    as [l [e|[raw|]]] eqn:Hd.
  - rewrite (run_raise _ _ _ _ _ _ _ _ _ _ Hd). discriminate.
  - rewrite (run_filtered _ _ _ _ _ _ _ _ _ Hd), Hg. simpl.
    destruct (forallb trivial_self raw) eqn:Hall; [discriminate|].
    intros [= _ <-].
    assert (Hne : remove_trivial raw ≠ []).
    { intros Hnil. apply remove_trivial_nil in Hnil. congruence. }
    split.
    + rewrite out_edges_build_filtered. exact Hne.
    + rewrite <- take_keep_mask in Hne. simpl.
      destruct (np_take (col_S raw) (keep_mask raw)); simpl; [|lia].
      exfalso. apply Hne. unfold rows, zip. apply zip_with_nil_r.
  - rewrite (run_unbound _ _ _ _ _ _ _ _ _ Hd). discriminate.
Qed.

(** X4: the no-edges policy decides nothing but the degenerate case.  A
    call that returns under the default policy runs in the same way, with
    the same events and the same result, under any other module globals. *)
Theorem policy_does_not_change_a_returned_result
    g g' pos r_max si ssi cell pbc NL log out :
  _ERROR_ON_NO_EDGES g = true →
  neighbor_list_and_relative_vec g pos r_max si ssi cell pbc NL
  = (log, Return out) →
  neighbor_list_and_relative_vec g' pos r_max si ssi cell pbc NL
  = (log, Return out).
Proof.
  intros Hg.
  destruct (dispatch_call pos r_max si ssi cell pbc NL)
    as [l [e|[raw|]]] eqn:Hd.
  - rewrite (run_raise _ _ _ _ _ _ _ _ _ _ Hd). discriminate.
  - destruct si.
    + rewrite !(run_unfiltered _ _ _ _ _ _ _ _ _ Hd). auto.
    + rewrite !(run_filtered _ _ _ _ _ _ _ _ _ Hd), Hg. simpl.
      destruct (forallb trivial_self raw); [discriminate|].
      rewrite andb_false_r. auto.
  - rewrite (run_unbound _ _ _ _ _ _ _ _ _ Hd). discriminate.
Qed.

(** X5: on ase, turning [self_interaction] off removes the same-image
    self-edges from what the call returns with it on, and changes nothing
    else: same events, same cell tensor. *)
Theorem self_interaction_switch_on_ase
    g pos r_max ssi cell pbc log out0 :
  neighbor_list_and_relative_vec g pos r_max false ssi cell pbc "ase"
  = (log, Return out0) →
  ∃ out1,
    neighbor_list_and_relative_vec g pos r_max true ssi cell pbc "ase"
    = (log, Return out1) ∧
    out_edges out0 = remove_trivial (out_edges out1) ∧
    cell_out out0 = cell_out out1.
Proof.
  pose proof (dispatch_ase pos r_max false ssi cell pbc) as Hd0.
  pose proof (dispatch_ase pos r_max true ssi cell pbc) as Hd1.
  rewrite (run_filtered _ _ _ _ _ _ _ _ _ Hd0),
    (run_unfiltered _ _ _ _ _ _ _ _ _ Hd1).
  destruct (_ && _); [discriminate|]. intros [= <- <-].
  eexists. split; [reflexivity|].
  rewrite out_edges_build, out_edges_build_filtered. split; reflexivity.
Qed.

(** X6: where vesin could not be imported, no call that selects it
    returns.  The flags are checked first, the periodic flags next, and
    only then the missing name is hit; no search has run. *)
Theorem vesin_not_importable g pos r_max si ssi cell pbc :
  vesin_nl = None →
  neighbor_list_and_relative_vec g pos r_max si ssi cell pbc "vesin"
  = (preamble pos,
     Raise (if negb (ssi && negb si) then AssertionError None
            else if mixed_pbc (normalize_pbc pbc)
                 then ValueError mixed_pbc_message
                 else NameError "vesin_nl")).
Proof.
  intros Hves. destruct (ssi && negb si) eqn:Hc; simpl.
  - apply andb_true_iff in Hc as [-> Hsi].
    apply negb_true_iff in Hsi as ->.
    destruct (mixed_pbc (normalize_pbc pbc)) eqn:Hmix.
    + pose proof (dispatch_vesin_mixed pos r_max cell pbc Hmix) as Hd.
      rewrite (run_raise _ _ _ _ _ _ _ _ _ _ Hd), app_nil_r. reflexivity.
    + pose proof (dispatch_vesin_uniform pos r_max cell pbc Hmix) as Hd.
      rewrite Hves in Hd.
      rewrite (run_raise _ _ _ _ _ _ _ _ _ _ Hd), app_nil_r. reflexivity.
  - pose proof (dispatch_vesin_assert pos r_max si ssi cell pbc Hc) as Hd.
    rewrite (run_raise _ _ _ _ _ _ _ _ _ _ Hd), app_nil_r. reflexivity.
Qed.


(** X8: the no-edges ValueError is raised in the degenerate case only:
    when it is raised, [self_interaction] was False, the policy was on, a
    search has run, and every pair it found was a same-image self-edge. *)
Theorem no_edges_error_only_when_degenerate
    g pos r_max si ssi cell pbc NL log :
  neighbor_list_and_relative_vec g pos r_max si ssi cell pbc NL
  = (log, Raise (ValueError (no_edges_message r_max))) →
  si = false ∧ _ERROR_ON_NO_EDGES g = true ∧
  ∃ l raw,
    dispatch_call pos r_max si ssi cell pbc NL = (l, Return (Some raw)) ∧
    remove_trivial raw = [].
Proof.
  destruct (dispatch_call pos r_max si ssi cell pbc NL)
    as [l [e|[raw|]]] eqn:Hd.
  - rewrite (run_raise _ _ _ _ _ _ _ _ _ _ Hd). intros [= _ ->].
    apply dispatch_raises in Hd as [_ [He | [He | He]]]; discriminate He.
  - destruct si.
    + rewrite (run_unfiltered _ _ _ _ _ _ _ _ _ Hd). discriminate.
    + rewrite (run_filtered _ _ _ _ _ _ _ _ _ Hd).
      destruct (_ERROR_ON_NO_EDGES g) eqn:Hg; simpl; [|discriminate].
      destruct (forallb trivial_self raw) eqn:Hall; [|discriminate].
      intros _. repeat split. exists l, raw. split; [reflexivity|].
      apply remove_trivial_nil, Hall.
  - rewrite (run_unbound _ _ _ _ _ _ _ _ _ Hd). discriminate.
Qed.

End MoreProperties.

(** X9: upper and lower case do not matter in the environment: the import
    gives the same globals, or the same error, when every value of the
    environment is replaced by its lowercase form. *)
Theorem import_is_case_insensitive (environ : gmap string string) :
  import_module (lower <$> environ) = import_module environ.
Proof.
  assert (Hget : ∀ key dflt, lower dflt = dflt →
    lower (environ_get (lower <$> environ) key dflt)
    = lower (environ_get environ key dflt)).
  { intros key dflt Hd. unfold environ_get. rewrite lookup_fmap.
    destruct (environ !! key); simpl; [apply lower_idemp | reflexivity]. }
  unfold import_module. rewrite !Hget by reflexivity. reflexivity.
Qed.

(** ** nequip.scripts.evaluate: frames, ranks and batches *)

Section EvaluateFrames.
Import Evaluate.

Lemma py_slice_nat {A} (a : list A) (lo hi : nat) :
  py_slice a (Z.of_nat lo) (Z.of_nat hi) = take (hi - lo) (drop lo a).
Proof.
  unfold py_slice, slice_bound.
  destruct (Z.ltb_spec (Z.of_nat lo) 0); [lia|].
  destruct (Z.ltb_spec (Z.of_nat hi) 0); [lia|].
  destruct (decide (lo ≤ length a)%nat) as [Hlo|Hlo].
  - rewrite (Z.min_l (Z.of_nat lo)), Nat2Z.id by lia.
    destruct (decide (hi ≤ length a)%nat) as [Hhi|Hhi].
    + rewrite (Z.min_l (Z.of_nat hi)) by lia. f_equal. lia.
    + rewrite (Z.min_r (Z.of_nat hi)) by lia.
      rewrite !take_ge; [reflexivity | |]; rewrite length_drop; lia.
  - rewrite (drop_ge a lo) by lia. rewrite take_nil.
    rewrite (Z.min_r (Z.of_nat lo)) by lia.
    replace (Z.to_nat (Z.of_nat hi `min` Z.of_nat (length a)
                       - Z.of_nat (length a))) with 0%nat by lia.
    reflexivity.
Qed.

Lemma ceil_div_bounds (a b : Z) :
  0 ≤ a → 0 < b → 0 ≤ ceil_div a b ∧ a ≤ b * ceil_div a b.
Proof.
  intros Ha Hb. unfold ceil_div.
  pose proof (Z.div_mod (- a) b ltac:(lia)) as Hdm.
  pose proof (Z.mod_pos_bound (- a) b Hb) as Hm.
  split; nia.
Qed.

Lemma concat_chunks {A} (a : list A) (n w : nat) :
  concat (map (λ r, take n (drop (r * n) a)) (seq 0 w)) = take (w * n) a.
Proof.
  induction w as [|w IH]; [reflexivity|].
  rewrite seq_S, map_app, concat_app, IH. simpl. rewrite app_nil_r.
  rewrite take_take_drop. f_equal. lia.
Qed.

Lemma rank_share_chunk (test_idcs : list Z) (world_size : Z) (rank : nat) :
  1 ≤ world_size →
  (rank_split true (Z.of_nat rank) world_size test_idcs).2
  = let n := Z.to_nat (ceil_div (Z.of_nat (length test_idcs)) world_size) in
    take n (drop (rank * n) test_idcs).
Proof.
  intros Hws. simpl.
  destruct (ceil_div_bounds (Z.of_nat (length test_idcs)) world_size)
    as [Hn _]; [lia | lia |].
  set (c := ceil_div (Z.of_nat (length test_idcs)) world_size) in *.
  replace (Z.of_nat rank * c) with (Z.of_nat (rank * Z.to_nat c)) by lia.
  replace ((Z.of_nat rank + 1) * c)
    with (Z.of_nat (rank * Z.to_nat c + Z.to_nat c)) by lia.
  rewrite py_slice_nat. f_equal. lia.
Qed.

Lemma rank_shares_concat (test_idcs : list Z) (world_size : Z) :
  1 ≤ world_size →
  concat (map (λ rank : nat,
                 (rank_split true (Z.of_nat rank) world_size test_idcs).2)
            (seq 0 (Z.to_nat world_size)))
  = test_idcs.
Proof.
  intros Hws.
  destruct (ceil_div_bounds (Z.of_nat (length test_idcs)) world_size)
    as [Hn Hcover]; [lia | lia |].
  rewrite (map_ext _ _ (λ rank, rank_share_chunk test_idcs world_size
                                  rank Hws)).
  cbv zeta. rewrite concat_chunks. apply take_ge. nia.
Qed.

(** X10: in a distributed run the ranks share out the test indexes
    without loss, overlap or reordering: the slices of ranks
    0 .. world_size-1, one after the other, are the whole tensor, and no
    rank gets more than ceil(len / world_size) indexes. *)
Theorem ranks_partition_the_test_set (test_idcs : list Z) (world_size : Z) :
  1 ≤ world_size →
  concat (map (λ rank : nat,
                 (rank_split true (Z.of_nat rank) world_size test_idcs).2)
            (seq 0 (Z.to_nat world_size)))
  = test_idcs ∧
  ∀ rank : nat,
    Z.of_nat (length (rank_split true (Z.of_nat rank) world_size
                        test_idcs).2)
    ≤ ceil_div (Z.of_nat (length test_idcs)) world_size.
Proof.
  intros Hws. split; [apply rank_shares_concat, Hws|].
  destruct (ceil_div_bounds (Z.of_nat (length test_idcs)) world_size)
    as [Hn _]; [lia | lia |].
  intros rank. rewrite (rank_share_chunk test_idcs world_size rank Hws).
  cbv zeta. rewrite length_take. lia.
Qed.

Lemma batch_loop_from (test_idcs : list Z) (b : nat) :
  (0 < b)%nat →
  ∀ (fuel k : nat),
    (length (drop (k * b) test_idcs) < fuel)%nat →
    ∃ batches,
      batch_loop fuel test_idcs (Z.of_nat b) (Z.of_nat k) = Some batches ∧
      concat batches = drop (k * b) test_idcs ∧
      Forall (λ batch, batch ≠ [] ∧ (length batch ≤ b)%nat) batches.
Proof.
  intros Hb. induction fuel as [|fuel IH]; intros k Hfuel; [lia|].
  simpl.
  replace (Z.of_nat k * Z.of_nat b) with (Z.of_nat (k * b)) by lia.
  replace ((Z.of_nat k + 1) * Z.of_nat b)
    with (Z.of_nat (k * b + b)) by lia.
  rewrite py_slice_nat.
  replace (k * b + b - k * b)%nat with b by lia.
  destruct (drop (k * b) test_idcs) as [|x rest] eqn:Hdrop.
  - rewrite take_nil. simpl. exists []. auto.
  - destruct b as [|b']; [lia|]. simpl.
    replace (Z.of_nat k + 1) with (Z.of_nat (S k)) by lia.
    assert (Hnext : drop (S k * S b') test_idcs = drop b' rest).
    { replace (S k * S b')%nat with (k * S b' + S b')%nat by lia.
      rewrite <- drop_drop, Hdrop. reflexivity. }
    destruct (IH (S k)) as (batches & Hloop & Hcat & Hall).
    { rewrite Hnext, length_drop. simpl in Hfuel. lia. }
    rewrite Hloop. simpl. eexists. split; [reflexivity|].
    split; [|constructor; [|exact Hall]].
    + simpl. rewrite Hcat, Hnext. f_equal. apply take_drop.
    + split; [discriminate|]. simpl. rewrite length_take. lia.
Qed.

Lemma batch_loop_covers (test_idcs : list Z) (batch_size : Z) (fuel : nat) :
  0 < batch_size →
  (length test_idcs < fuel)%nat →
  ∃ batches,
    batch_loop fuel test_idcs batch_size 0 = Some batches ∧
    concat batches = test_idcs ∧
    Forall (λ batch, batch ≠ [] ∧ Z.of_nat (length batch) ≤ batch_size)
      batches.
Proof.
  intros Hbs Hfuel.
  destruct (batch_loop_from test_idcs (Z.to_nat batch_size)
              ltac:(lia) fuel 0%nat)
    as (batches & Hloop & Hcat & Hall);
    [rewrite Nat.mul_0_l, drop_0; exact Hfuel|].
  rewrite Nat.mul_0_l, drop_0 in Hcat.
  rewrite Z2Nat.id in Hloop by lia.
  exists batches. split; [exact Hloop|]. split; [exact Hcat|].
  eapply Forall_impl; [exact Hall|]. simpl. intros batch [Hne Hlen].
  split; [exact Hne | lia].
Qed.

(** X11: with a positive batch size the loop ends, and it has walked
    through every index exactly once and in order: the batches, one after
    the other, are the index tensor; no batch is empty and none is larger
    than the batch size. *)
Theorem batches_cover_the_test_set
    (test_idcs : list Z) (batch_size : Z) (fuel : nat) :
  0 < batch_size →
  (length test_idcs < fuel)%nat →
  ∃ batches,
    batch_loop fuel test_idcs batch_size 0 = Some batches ∧
    concat batches = test_idcs ∧
    Forall (λ batch, batch ≠ [] ∧ Z.of_nat (length batch) ≤ batch_size)
      batches.
Proof. exact (batch_loop_covers test_idcs batch_size fuel). Qed.

(** X12: a batch size of zero or below is not refused.  With 0 the loop
    ends at once and nothing is evaluated; with -k one batch holds all
    indexes but the last k and the loop ends on the next round, so the
    last k frames are never evaluated. *)
Theorem nonpositive_batch_size (test_idcs : list Z) (batch_size : Z) :
  batch_size ≤ 0 →
  batch_loop 2 test_idcs batch_size 0
  = Some (if (batch_size =? 0)
             || (Z.of_nat (length test_idcs) + batch_size <=? 0)
          then []
          else [take (Z.to_nat (Z.of_nat (length test_idcs) + batch_size))
                  test_idcs]).
Proof.
  intros Hbs. simpl. unfold py_slice, slice_bound.
  set (len := Z.of_nat (length test_idcs)).
  replace (0 * batch_size) with 0 by lia.
  replace ((0 + 1) * batch_size) with batch_size by lia.
  replace ((0 + 1 + 1) * batch_size) with (2 * batch_size) by lia.
  simpl (0 <? 0). cbv iota.
  destruct (Z.eqb_spec batch_size 0) as [->|Hnz]; simpl.
  - rewrite Z.min_l by lia. reflexivity.
  - destruct (Z.ltb_spec batch_size 0); [|lia].
    destruct (Z.ltb_spec (2 * batch_size) 0); [|lia].
    rewrite (Z.min_l 0) by lia. simpl. rewrite drop_0.
    destruct (Z.leb_spec (len + batch_size) 0) as [Hle|Hgt].
    + rewrite Z.max_r by lia. reflexivity.
    + rewrite (Z.max_l (batch_size + len)) by lia.
      replace (batch_size + len - 0) with (len + batch_size) by lia.
      rewrite length_take.
      replace (Z.to_nat (len + batch_size) `min` length test_idcs)%nat
        with (Z.to_nat (len + batch_size)) by lia.
      destruct (Z.to_nat (len + batch_size)) as [|m] eqn:Hm; [lia|].
      simpl (S m =? 0)%nat. cbv iota.
      match goal with
      | |- context [take (Z.to_nat ?e) (drop _ _)] =>
          replace (Z.to_nat e) with 0%nat by lia
      end.
      reflexivity.
Qed.

Lemma length_concat_replicate {A} (n : nat) (a : list A) :
  length (concat (replicate n a)) = (n * length a)%nat.
Proof.
  induction n as [|n IH]; simpl; [reflexivity|].
  rewrite length_app, IH. reflexivity.
Qed.

(** X13: repeating, dividing between ranks and batching fit together.
    For [repeat >= 0], a positive batch size and enough fuel, every rank
    of a distributed run ends its loop, and the frames the ranks have
    evaluated, rank after rank and batch after batch, are the test indexes
    [repeat] times over; a run that is not distributed evaluates the same
    sequence by itself. *)
Theorem evaluation_covers_the_repeated_test_set
    (test_idcs : list Z) (repeat batch_size world_size : Z) (fuel : nat) :
  0 ≤ repeat → 0 < batch_size → 1 ≤ world_size →
  (Z.to_nat repeat * length test_idcs < fuel)%nat →
  let tiled := concat (replicate (Z.to_nat repeat) test_idcs) in
  (∃ per_rank : nat → list (list Z),
     (∀ rank : nat,
        evaluated_by_rank fuel test_idcs repeat batch_size true
          (Z.of_nat rank) world_size = Some (per_rank rank)) ∧
     concat (map (λ rank, concat (per_rank rank))
               (seq 0 (Z.to_nat world_size))) = tiled) ∧
  (∃ batches,
     evaluated_by_rank fuel test_idcs repeat batch_size false 0 1
     = Some batches ∧ concat batches = tiled).
Proof.
  intros Hrep Hbs Hws Hfuel tiled.
  assert (Hlen : length tiled = (Z.to_nat repeat * length test_idcs)%nat)
    by apply length_concat_replicate.
  assert (Htile : tile test_idcs repeat = Some tiled).
  { unfold tile. destruct (Z.ltb_spec repeat 0); [lia | reflexivity]. }
  unfold evaluated_by_rank. rewrite Htile. simpl.
  pose proof (rank_shares_concat tiled world_size Hws) as Hpart.
  split.
  - assert (Hrank : ∀ rank : nat, ∃ batches,
      batch_loop fuel
        (rank_split true (Z.of_nat rank) world_size tiled).2 batch_size 0
      = Some batches ∧
      concat batches = (rank_split true (Z.of_nat rank) world_size tiled).2).
    { intros rank.
      destruct (batch_loop_covers
                  (rank_split true (Z.of_nat rank) world_size tiled).2
                  batch_size fuel Hbs) as (batches & Hloop & Hcat & _).
      - pose proof (sublist_length
                      (rank_split true (Z.of_nat rank) world_size tiled).2
                      tiled) as Hsub.
        rewrite (rank_share_chunk tiled world_size rank Hws) in *.
        cbv zeta in *.
        assert (Hl : (length (take
                   (Z.to_nat (ceil_div (Z.of_nat (length tiled)) world_size))
                   (drop (rank * Z.to_nat
                            (ceil_div (Z.of_nat (length tiled)) world_size))
                      tiled)) ≤ length tiled)%nat).
        { rewrite length_take, length_drop. lia. }
        lia.
      - eauto. }
    exists (λ rank,
      default [] (batch_loop fuel
        (rank_split true (Z.of_nat rank) world_size tiled).2 batch_size 0)).
    split.
    + intros rank. destruct (Hrank rank) as (batches & Hloop & _).
      simpl in Hloop |- *. rewrite Hloop. reflexivity.
    + etransitivity; [|exact Hpart]. f_equal. apply map_ext. intros rank.
      destruct (Hrank rank) as (batches & Hloop & Hcat).
      simpl in Hloop, Hcat |- *. rewrite Hloop. exact Hcat.
  - destruct (batch_loop_covers tiled batch_size fuel Hbs)
      as (batches & Hloop & Hcat & _); [lia|]. eauto.
Qed.

End EvaluateFrames.

(** ** nequip.scripts.evaluate: arguments and the test set *)

Section EvaluateArguments.
Import Evaluate.

Lemma split_on_not_nil (sep : Ascii.ascii) (s : string) :
  split_on sep s ≠ [].
Proof.
  destruct s as [|c s]; simpl; [discriminate|].
  destruct (Ascii.eqb c sep); [discriminate|].
  destruct (split_on sep s); discriminate.
Qed.

Lemma split_on_no_sep (sep : Ascii.ascii) (s : string) :
  Forall (λ e, has_char sep e = false) (split_on sep s).
Proof.
  induction s as [|c s IH]; simpl; [repeat constructor|].
  destruct (Ascii.eqb c sep) eqn:Hc.
  - constructor; [reflexivity | exact IH].
  - destruct (split_on sep s) as [|h t]; [repeat constructor; simpl|].
    + rewrite Hc. reflexivity.
    + inversion IH as [|? ? Hh Ht]; subst. constructor; [|exact Ht].
      simpl. rewrite Hc, Hh. reflexivity.
Qed.

Lemma split_on_plain (sep : Ascii.ascii) (x : string) :
  has_char sep x = false → split_on sep x = [x].
Proof.
  induction x as [|c x IH]; simpl; [reflexivity|].
  intros Hx. apply orb_false_iff in Hx as [Hc Hx].
  rewrite Hc, (IH Hx). reflexivity.
Qed.

Lemma split_on_app (sep : Ascii.ascii) (x rest : string) :
  has_char sep x = false →
  split_on sep (x +:+ String sep rest) = x :: split_on sep rest.
Proof.
  induction x as [|c x IH]; simpl.
  - intros _. rewrite Ascii.eqb_refl. reflexivity.
  - intros Hx. apply orb_false_iff in Hx as [Hc Hx].
    rewrite Hc. specialize (IH Hx). simpl in IH. rewrite IH. reflexivity.
Qed.

(** X14: every name read from [--output-fields] or
    [--output-fields-from-original-dataset] is a name: whatever the
    argument string, no parsed name is empty and none holds a comma. *)
Theorem field_names_are_names (s : string) :
  Forall is_field_name (field_names s).
Proof.
  unfold field_names, is_field_name.
  pose proof (split_on_no_sep comma s) as Hall.
  induction Hall as [|e l He Hl IH]; simpl; [constructor|].
  destruct (String.eqb_spec e ""); simpl; [exact IH|].
  constructor; [split; assumption | exact IH].
Qed.

(** X15: names written with commas between them are read back as they
    were: for any list of names (not empty, no comma inside), parsing the
    comma-joined string gives the list again. *)
Theorem field_names_round_trip (names : list string) :
  Forall is_field_name names →
  field_names (join_with "," names) = names.
Proof.
  unfold field_names.
  induction 1 as [|x rest [Hne Hcomma] Hrest IH]; [reflexivity|].
  destruct rest as [|y rest'].
  - simpl. rewrite (split_on_plain comma x Hcomma). simpl.
    destruct (String.eqb_spec x ""); [contradiction | reflexivity].
  - change (join_with "," (x :: y :: rest'))
      with (x +:+ String comma (join_with "," (y :: rest'))).
    rewrite (split_on_app comma x _ Hcomma). simpl List.filter.
    destruct (String.eqb_spec x ""); [contradiction|]. simpl.
    f_equal. exact IH.
Qed.

Context {path : Type}.
Variable joinpath : path → string → path.
Variable Path : string → path.
Variable suffix : path → string.
Variable load_trainer : path → gset Z * gset Z.

(** X16: which argument lists pass the defaults and the validation.  The
    block returns exactly when a dataset config and a model are given or
    follow from [--train-dir], and either [--output] is given with the
    suffix ".xyz", or it is not given, [--output-fields] is empty, and
    there are metrics to compute: [--metrics-config] is not the word
    "None", and it or [--train-dir] is given. *)
Theorem resolve_args_returns_iff (a : args path) :
  (∃ ev r, resolve_args joinpath Path suffix load_trainer a
           = (ev, Return r)) ↔
  (is_Some (train_dir a) ∨ is_Some (dataset_config a)) ∧
  (is_Some (train_dir a) ∨ is_Some (model a)) ∧
  match output a with
  | Some o => suffix o = ".xyz"
  | None =>
      output_fields a = "" ∧
      metrics_config a ≠ Some "None" ∧
      (is_Some (metrics_config a) ∨ is_Some (train_dir a))
  end.
Proof.
  destruct a as [[d|] [m|] [dc|] [mc|] ti [o|] fields original];
    unfold resolve_args; simpl;
    try destruct (String.eqb_spec mc "None") as [->|Hmc];
    try destruct (String.eqb_spec (suffix o) ".xyz") as [Hsfx|Hsfx];
    try destruct (String.eqb_spec fields "") as [->|Hf];
    try destruct ti;
    cbv [mbind mret mthrow py_bind py_ret py_raise py_assert]; simpl;
    (split;
     [ intros (ev & r & Heq);
       first [ discriminate Heq
             | repeat split; eauto; congruence ]
     | intros (Hdc & Hm & Hout);
       first [ by eauto
             | exfalso;
               repeat match goal with
                      | H : _ ∧ _ |- _ => destruct H
                      | H : _ ∨ _ |- _ => destruct H
                      | H : is_Some None |- _ => destruct H; discriminate
                      end; congruence ] ]).
Qed.

(** X17: after arguments that passed, the choice of the test set never
    reads an unassigned [train_idcs].  The automatic test set (all frames
    but the training and validation frames of the session) is taken
    exactly when [--train-dir] is given and neither [--dataset-config] nor
    [--test-indexes] is; without [--test-indexes] all frames are taken
    otherwise, and with it the file is read. *)
Theorem test_source_is_chosen (a : args path) ev (r : resolved path) :
  resolve_args joinpath Path suffix load_trainer a = (ev, Return r) →
  choose_test_source a r
  = ([], Return
           match train_dir a, dataset_config a, test_indexes a with
           | Some d, None, None =>
               Automatic (load_trainer (joinpath d "trainer.pth")).1
                         (load_trainer (joinpath d "trainer.pth")).2
           | _, _, None => AllFrames
           | _, _, Some _ => FromFile
           end).
Proof.
  destruct a as [[d|] [m|] [dc|] [mc|] [ti|] [o|] fields original];
    unfold resolve_args, choose_test_source; simpl;
    try destruct (String.eqb mc "None");
    try destruct (String.eqb (suffix o) ".xyz");
    try destruct (String.eqb fields "");
    cbv [mbind mret mthrow py_bind py_ret py_raise py_assert]; simpl;
    intros [= <- <-] || discriminate; reflexivity.
Qed.

End EvaluateArguments.

Section EvaluateTestSet.
Import Evaluate.

Lemma elem_of_all_idcs (n : nat) (i : Z) :
  i ∈ (list_to_set (Z.of_nat <$> seq 0 n) : gset Z) ↔ 0 ≤ i < Z.of_nat n.
Proof.
  rewrite elem_of_list_to_set, list_elem_of_fmap. split.
  - intros (k & -> & Hk). apply elem_of_seq in Hk. lia.
  - intros Hi. exists (Z.to_nat i). split; [lia|].
    apply elem_of_seq. lia.
Qed.

(** X18: the two disjointness assertions of the automatic test set never
    fail.  For any way [list] walks a set, the block returns, and the test
    indexes are the frames of the dataset that are not validation frames
    and, unless the dataset is the validation dataset, not training
    frames. *)
Theorem automatic_test_set_assertions_hold
    (list_of_set : gset Z → list Z) (n : nat) (dataset_is_validation : bool)
    (train_idcs val_idcs : gset Z) :
  (∀ s x, x ∈ list_of_set s ↔ x ∈ s) →
  ∃ test_idcs,
    automatic_test_set list_of_set n dataset_is_validation
      train_idcs val_idcs = ([], Return test_idcs) ∧
    ∀ i, i ∈ test_idcs ↔
         (0 ≤ i ∧ i < Z.of_nat n) ∧ (i ∉ val_idcs) ∧
         (dataset_is_validation = false → i ∉ train_idcs).
Proof.
  intros Hlist. unfold automatic_test_set.
  set (all_idcs := (list_to_set (Z.of_nat <$> seq 0 n) : gset Z)).
  destruct dataset_is_validation.
  - cbv [mbind mret py_bind py_ret]. simpl.
    rewrite bool_decide_eq_true_2.
    + simpl. eexists. split; [reflexivity|]. intros i.
      rewrite Hlist, elem_of_difference. unfold all_idcs.
      rewrite elem_of_all_idcs. split.
      * intros [Hr Hv]. split; [exact Hr|]. split; [exact Hv|]. discriminate.
      * intros (Hr & Hv & _). split; assumption.
    + intros i Hi Hval. apply elem_of_list_to_set, Hlist in Hi.
      apply elem_of_difference in Hi as [_ Hn]. exact (Hn Hval).
  - cbv [mbind mret py_bind py_ret]. simpl.
    rewrite bool_decide_eq_true_2.
    + simpl. rewrite bool_decide_eq_true_2.
      * simpl. eexists. split; [reflexivity|]. intros i.
        rewrite Hlist, !elem_of_difference. unfold all_idcs.
        rewrite elem_of_all_idcs. split.
        -- intros [[Hr Htr] Hv]. split; [exact Hr|]. split; [exact Hv|].
           intros _. exact Htr.
        -- intros (Hr & Hv & Htr). split; [split|]; auto.
      * intros i Hi Hval. apply elem_of_list_to_set, Hlist in Hi.
        apply elem_of_difference in Hi as [_ Hn]. exact (Hn Hval).
    + intros i Hi Htr. apply elem_of_list_to_set, Hlist in Hi.
      apply elem_of_difference in Hi as [Hi _].
      apply elem_of_difference in Hi as [_ Hn]. exact (Hn Htr).
Qed.

End EvaluateTestSet.

(** ** The properties on sample systems *)

Import Reference.

(** One atom in a periodic cubic cell of side 4, cutoff 5, on ase: the
    primitive lists the atom itself and its six nearest images; the six
    images are returned. *)
Lemma no_trivial_self_edge_returned_witness :
  ∃ out,
    result (run default_globals (PosArray single) 5 false true
              (CellArray (cubic 4)) (PbcBool true) "ase") = Return out ∧
    length (ase_call (L := libs) (PosArray single) 5 true
              (CellArray (cubic 4)) (PbcBool true)) = 7%nat ∧
    length (out_edges out) = 6%nat ∧
    ∀ s t S, (s, t, S) ∈ out_edges out → ¬ (s = t ∧ S = (0, 0, 0)).
Proof.
  eexists. split; [vm_compute; reflexivity|].
  split; [reflexivity|]. split; [reflexivity|].
  apply (no_trivial_self_edge_returned (L := libs)
           default_globals (PosArray single) 5 true
           (CellArray (cubic 4)) (PbcBool true) "ase"
           [Call ase_complete_cell; Call ase_primitive_neighbor_list]).
  vm_compute. reflexivity.
Defined.

(** Against C2 as stated: without a cell argument the returned cell is the
    zero matrix, while the completed cell, the one the search receives, is
    the unit cell. *)
Lemma returned_cell_not_completed :
  ∃ out,
    result (run default_globals (PosArray dimer) 4 false true
              CellNone (PbcBool false) "matscipy") = Return out ∧
    t_data (cell_out out) = ((0, 0, 0), (0, 0, 0), (0, 0, 0)) ∧
    complete_cell (raw_cell (L := libs) CellNone)
    = ((1, 0, 0), (0, 1, 0), (0, 0, 1)) ∧
    t_data (cell_out out) ≠ complete_cell (raw_cell (L := libs) CellNone).
Proof.
  eexists. split; [vm_compute; reflexivity|].
  split; [reflexivity|]. split; [reflexivity|]. discriminate.
Qed.

(** The same call: the returned cell is the zero matrix as a float32 tensor
    on the CPU. *)
Lemma returned_cell_is_input_cell_witness :
  ∃ out,
    result (run default_globals (PosArray dimer) 4 false true
              CellNone (PbcBool false) "matscipy") = Return out ∧
    cell_out out
    = Tensor cpu float32 ((0, 0, 0), (0, 0, 0), (0, 0, 0)).
Proof.
  eexists. split; [vm_compute; reflexivity|].
  apply (returned_cell_is_input_cell (L := libs)
           default_globals (PosArray dimer) 4 false true
           CellNone (PbcBool false) "matscipy"
           [Call ase_complete_cell; Call matscipy_neighbour_list]).
  vm_compute. reflexivity.
Defined.

(** One atom alone in a periodic cell of side 4 with cutoff 2: the only
    pair ase lists is the atom with itself.  Under the default environment
    the call raises and the message holds "2"; with the opt-out it returns
    no edge. *)
Lemma no_edges_error_witness :
  (∃ msg,
     result (run (Globals true "matscipy") (PosArray single) 2 false true
               (CellArray (cubic 4)) (PbcBool true) "ase")
     = Raise (ValueError msg) ∧ names_value "2" msg) ∧
  (∃ out,
     result (run (Globals false "matscipy") (PosArray single) 2 false true
               (CellArray (cubic 4)) (PbcBool true) "ase")
     = Return out ∧ out_edges out = []).
Proof.
  split.
  - exact (no_edges_error (L := libs) ∅ (Globals true "matscipy")
             (PosArray single) 2 true (CellArray (cubic 4)) (PbcBool true)
             "ase" [Call ase_primitive_neighbor_list] [(0, 0, (0, 0, 0))]
             eq_refl eq_refl eq_refl).
  - exact (no_edges_error (L := libs)
             {[ "NEQUIP_ERROR_ON_NO_EDGES" := "False" ]}
             (Globals false "matscipy")
             (PosArray single) 2 true (CellArray (cubic 4)) (PbcBool true)
             "ase" [Call ase_primitive_neighbor_list] [(0, 0, (0, 0, 0))]
             eq_refl eq_refl eq_refl).
Defined.

(** Against C4 as stated: asking matscipy for self-interaction ends in an
    AssertionError that carries no message; and with the flags vesin
    requires, vesin still runs no search when the periodic flags differ. *)
Lemma restricted_backend_error_not_descriptive :
  (∃ e,
     result (run default_globals (PosArray dimer) 4 true true
               CellNone (PbcBool false) "matscipy") = Raise e ∧
     exn_message e = None ∧
     ¬ descriptive e) ∧
  run default_globals (PosArray dimer) 4 false true
    (CellArray (cubic 10)) (PbcTuple (true, false, true)) "vesin"
  = ([Call ase_complete_cell], Raise (ValueError mixed_pbc_message)).
Proof.
  split; [|reflexivity].
  exists (AssertionError None).
  split; [reflexivity|]. split; [reflexivity|].
  intros (msg & Hmsg & _). discriminate Hmsg.
Qed.

(** The dimer on matscipy with self-interaction stops at the assertion; on
    vesin with the default flags the search is run. *)
Lemma restricted_backends_assert_witness :
  (run default_globals (PosArray dimer) 4 true true
     CellNone (PbcBool false) "matscipy"
   = ([Call ase_complete_cell], Raise (AssertionError None)) ∧
   no_search (run default_globals (PosArray dimer) 4 true true
                CellNone (PbcBool false) "matscipy")) ∧
  Call vesin_compute ∈
    events (run default_globals (PosArray dimer) 4 false true
              CellNone (PbcBool false) "vesin").
Proof.
  split.
  - exact (proj1 (restricted_backends_assert (L := libs)
                    default_globals (PosArray dimer) 4 true true
                    CellNone (PbcBool false) "matscipy"
                    (or_introl eq_refl))
                 (or_introl eq_refl)).
  - exact (proj2 (proj2 (proj2 (restricted_backends_assert (L := libs)
                    default_globals (PosArray dimer) 4 false true
                    CellNone (PbcBool false) "vesin"
                    (or_intror eq_refl))
                 eq_refl eq_refl))
             eq_refl eq_refl (ex_intro _ _ eq_refl)).
Defined.

(** Against C5 as stated: one atom alone, periodic along x and z only, with
    cutoff 2.  On ase the call does not succeed: nothing is left after the
    filter and the no-edges ValueError is raised. *)
Lemma mixed_pbc_ase_call_fails :
  mixed_pbc (normalize_pbc (PbcTuple (true, false, true))) = true ∧
  result (run default_globals (PosArray single) 2 false true
            (CellArray (cubic 4)) (PbcTuple (true, false, true)) "ase")
  = Raise (ValueError (no_edges_message (L := libs) 2)) ∧
  ¬ ∃ out,
      result (run default_globals (PosArray single) 2 false true
                (CellArray (cubic 4)) (PbcTuple (true, false, true)) "ase")
      = Return out.
Proof.
  split; [reflexivity|]. split; [vm_compute; reflexivity|].
  intros [out Hout]. vm_compute in Hout. discriminate Hout.
Qed.

(** Two atoms 3 apart, periodic along x and z in a cell of side 10, cutoff
    4: vesin refuses the flags, ase returns. *)
Lemma mixed_pbc_vesin_and_ase_witness :
  (result (run default_globals (PosArray dimer) 4 false true
             (CellArray (cubic 10)) (PbcTuple (true, false, true)) "vesin")
   = Raise (ValueError mixed_pbc_message) ∧
   no_search (run default_globals (PosArray dimer) 4 false true
                (CellArray (cubic 10)) (PbcTuple (true, false, true))
                "vesin")) ∧
  Call ase_primitive_neighbor_list ∈
    events (run default_globals (PosArray dimer) 4 false true
              (CellArray (cubic 10)) (PbcTuple (true, false, true)) "ase") ∧
  ∃ out,
    result (run default_globals (PosArray dimer) 4 false true
              (CellArray (cubic 10)) (PbcTuple (true, false, true)) "ase")
    = Return out.
Proof.
  pose proof (mixed_pbc_vesin_and_ase (L := libs)
                default_globals (PosArray dimer) 4 false true
                (CellArray (cubic 10)) (PbcTuple (true, false, true))
                eq_refl) as [[Hres Hns] [Hev Hase]].
  split; [split; [vm_compute; reflexivity | exact Hns]|].
  split; [exact Hev|].
  destruct Hase as [[_ Hraise] | [_ Hret]]; [|exact Hret].
  vm_compute in Hraise. discriminate Hraise.
Defined.



(** The periodic single atom again: the list of the primitive is closed
    under reversal, and so are the six returned edges. *)
Lemma returned_edges_closed_under_reversal_witness :
  ∃ out,
    result (run default_globals (PosArray single) 5 false true
              (CellArray (cubic 4)) (PbcBool true) "ase") = Return out ∧
    length (out_edges out) = 6%nat ∧
    closed_under_reversal (out_edges out).
Proof.
  eexists. split; [vm_compute; reflexivity|]. split; [reflexivity|].
  apply (returned_edges_closed_under_reversal (L := libs)
           default_globals (PosArray single) 5 false true
           (CellArray (cubic 4)) (PbcBool true) "ase"
           [Call ase_primitive_neighbor_list]
           (ase_call (L := libs) (PosArray single) 5 true
              (CellArray (cubic 4)) (PbcBool true))
           [Call ase_complete_cell; Call ase_primitive_neighbor_list]).
  - reflexivity.
  - apply closed_under_reversalb_sound. vm_compute. reflexivity.
  - vm_compute. reflexivity.
Defined.


(** With [self_interaction=True] and [strict_self_interaction=False] the
    lone atom has no pair at all on ase, and the empty list is returned. *)
Example empty_list_returned_with_self_interaction :
  run default_globals (PosArray single) 2 true false
    (CellArray (cubic 4)) (PbcBool true) "ase"
  = ([Call ase_complete_cell; Call ase_primitive_neighbor_list],
     Return (NlOutput
               (Tensor cpu int64 ([], []))
               (Tensor cpu float32 [])
               (Tensor cpu float32 (cubic 4)))).
Proof. reflexivity. Qed.

(** The name "ASE" is not "ase" for the function; the name "lammps" in
    NEQUIP_NL stops the import. *)
Lemma unknown_backend_name_witness :
  run default_globals (PosTensor (Tensor cuda0 float64 dimer)) 4 false true
    CellNone (PbcBool false) "ASE"
  = ([Warn gpu_warning; Call ase_complete_cell],
     Raise (UnboundLocalError "first_idex")) ∧
  import_module {[ "NEQUIP_NL" := "lammps" ]}
  = ([], Raise (AssertionError
                  (Some "Unknown neighborlist NEQUIP_NL = lammps"))).
Proof.
  split.
  - exact (proj1 (unknown_backend_name (L := libs) ∅
                    default_globals (PosTensor (Tensor cuda0 float64 dimer))
                    4 false true CellNone (PbcBool false) "ASE" eq_refl)).
  - exact (proj2 (proj2 (proj2 (unknown_backend_name (L := libs)
                    {[ "NEQUIP_NL" := "lammps" ]}
                    default_globals (PosArray dimer)
                    4 false true CellNone (PbcBool false) "lammps" eq_refl)))
             eq_refl eq_refl eq_refl).
Defined.

(** Where vesin could not be imported, choosing it ends in a NameError, and
    no search has run. *)
Example vesin_not_installed :
  neighbor_list_and_relative_vec (L := libs_without_vesin) default_globals
    (PosArray dimer) 4 false true CellNone (PbcBool false) "vesin"
  = ([Call ase_complete_cell], Raise (NameError "vesin_nl")).
Proof. reflexivity. Qed.

(** The two-atom scenario: atoms 3 apart, no periodicity, cutoff 4. *)
Example dimer_edges :
  result (neighbor_list_and_relative_vec_default_NL (L := libs)
            default_globals (PosArray dimer) 4 false true
            CellNone (PbcBool false))
  = Return (NlOutput
              (Tensor cpu int64 ([0; 1], [1; 0]))
              (Tensor cpu float32 [(0, 0, 0); (0, 0, 0)])
              (Tensor cpu float32 ((0, 0, 0), (0, 0, 0), (0, 0, 0)))).
Proof. reflexivity. Qed.

(** The import under three environments. *)
Example import_default :
  import_module ∅ = ([], Return (Globals true "matscipy")).
Proof. reflexivity. Qed.

Example import_upper_case :
  import_module {[ "NEQUIP_NL" := "ASE";
                   "NEQUIP_ERROR_ON_NO_EDGES" := "False" ]}
  = ([], Return (Globals false "ase")).
Proof. vm_compute. reflexivity. Qed.

Example import_bad_flag :
  import_module {[ "NEQUIP_ERROR_ON_NO_EDGES" := "no" ]}
  = ([], Raise (AssertionError None)).
Proof. vm_compute. reflexivity. Qed.

(** ** The further properties on sample systems *)

(** The periodic single atom on ase: seven pairs found, six returned. *)
Lemma output_shapes_and_placement_witness :
  ∃ out,
    result (run default_globals (PosArray single) 5 false true
              (CellArray (cubic 4)) (PbcBool true) "ase") = Return out ∧
    length (t_data (edge_index out)).1 = 6%nat ∧
    length (t_data (edge_index out)).2 = 6%nat ∧
    length (t_data (edge_cell_shift out)) = 6%nat ∧
    t_device (edge_index out) = cpu ∧
    t_dtype (edge_cell_shift out) = float32.
Proof.
  eexists. split; [vm_compute; reflexivity|].
  pose proof (output_shapes_and_placement (L := libs)
                default_globals (PosArray single) 5 false true
                (CellArray (cubic 4)) (PbcBool true) "ase"
                [Call ase_complete_cell; Call ase_primitive_neighbor_list]
                _ eq_refl) as (H1 & H2 & _ & H4 & _ & _ & H7 & _).
  repeat split; first [exact H4 | exact H7 | reflexivity].
Defined.


Lemma default_policy_returns_an_edge_witness :
  ∃ out,
    result (run default_globals (PosArray dimer) 4 false true
              CellNone (PbcBool false) "matscipy") = Return out ∧
    out_edges out ≠ [].
Proof.
  eexists. split; [vm_compute; reflexivity|].
  exact (proj1 (default_policy_returns_an_edge (L := libs)
                  default_globals (PosArray dimer) 4 true
                  CellNone (PbcBool false) "matscipy"
                  [Call ase_complete_cell; Call matscipy_neighbour_list]
                  _ eq_refl eq_refl)).
Defined.

Lemma policy_does_not_change_a_returned_result_witness :
  run (Globals false "ase") (PosArray dimer) 4 false true
    CellNone (PbcBool false) "matscipy"
  = run (Globals true "matscipy") (PosArray dimer) 4 false true
      CellNone (PbcBool false) "matscipy".
Proof.
  etransitivity.
  - exact (policy_does_not_change_a_returned_result (L := libs)
             (Globals true "matscipy") (Globals false "ase")
             (PosArray dimer) 4 false true CellNone (PbcBool false)
             "matscipy" _ _ eq_refl eq_refl).
  - reflexivity.
Defined.

(** The periodic single atom on ase, with and without
    [self_interaction]. *)
Lemma self_interaction_switch_on_ase_witness :
  ∃ out0 out1,
    result (run default_globals (PosArray single) 5 false true
              (CellArray (cubic 4)) (PbcBool true) "ase") = Return out0 ∧
    result (run default_globals (PosArray single) 5 true true
              (CellArray (cubic 4)) (PbcBool true) "ase") = Return out1 ∧
    length (out_edges out1) = 7%nat ∧
    out_edges out0 = remove_trivial (out_edges out1).
Proof.
  destruct (self_interaction_switch_on_ase (L := libs)
              default_globals (PosArray single) 5 true
              (CellArray (cubic 4)) (PbcBool true)
              [Call ase_complete_cell; Call ase_primitive_neighbor_list]
              _ eq_refl) as (out1 & Hrun & Hedges & _).
  eexists _, out1. split; [vm_compute; reflexivity|].
  split; [exact (f_equal snd Hrun)|].
  split; [|exact Hedges].
  vm_compute in Hrun. injection Hrun as <-. reflexivity.
Defined.

Lemma vesin_not_importable_witness :
  neighbor_list_and_relative_vec (L := libs_without_vesin) default_globals
    (PosArray dimer) 4 false true CellNone (PbcBool false) "vesin"
  = ([Call ase_complete_cell], Raise (NameError "vesin_nl")) ∧
  neighbor_list_and_relative_vec (L := libs_without_vesin) default_globals
    (PosArray dimer) 4 false true CellNone (PbcTuple (true, false, true))
    "vesin"
  = ([Call ase_complete_cell], Raise (ValueError mixed_pbc_message)).
Proof.
  split.
  - exact (vesin_not_importable (L := libs_without_vesin) default_globals
             (PosArray dimer) 4 false true CellNone (PbcBool false)
             eq_refl).
  - exact (vesin_not_importable (L := libs_without_vesin) default_globals
             (PosArray dimer) 4 false true CellNone
             (PbcTuple (true, false, true)) eq_refl).
Defined.

(** The lone atom with cutoff 2: the error, and what it tells. *)
Lemma no_edges_error_only_when_degenerate_witness :
  run default_globals (PosArray single) 2 false true
    (CellArray (cubic 4)) (PbcBool true) "ase"
  = ([Call ase_complete_cell; Call ase_primitive_neighbor_list],
     Raise (ValueError (no_edges_message (L := libs) 2))) ∧
  ∃ l raw,
    dispatch_call (L := libs) (PosArray single) 2 false true
      (CellArray (cubic 4)) (PbcBool true) "ase" = (l, Return (Some raw)) ∧
    remove_trivial raw = [].
Proof.
  split; [reflexivity|].
  exact (proj2 (proj2 (no_edges_error_only_when_degenerate (L := libs)
                  default_globals (PosArray single) 2 false true
                  (CellArray (cubic 4)) (PbcBool true) "ase"
                  [Call ase_complete_cell; Call ase_primitive_neighbor_list]
                  eq_refl))).
Defined.

(** After an import with NEQUIP_NL=ASE the default call runs on ase. *)
Lemma default_NL_bound_witness :
  result (import_module {[ "NEQUIP_NL" := "ASE" ]})
  = Return (Globals true "ase") ∧
  result (neighbor_list_and_relative_vec_default_NL (L := libs)
            (Globals true "ase") (PosArray dimer) 4 true true
            CellNone (PbcBool false))
  ≠ Raise (UnboundLocalError "first_idex").
Proof.
  split; [vm_compute; reflexivity|].
  apply (default_NL_bound (L := libs) {[ "NEQUIP_NL" := "ASE" ]}).
  vm_compute. reflexivity.
Defined.

(** Seven frames on three ranks: 3 + 3 + 1. *)
Lemma ranks_partition_the_test_set_witness :
  (Evaluate.rank_split true 0 3 [10; 11; 12; 13; 14; 15; 16]).2
  ++ (Evaluate.rank_split true 1 3 [10; 11; 12; 13; 14; 15; 16]).2
  ++ (Evaluate.rank_split true 2 3 [10; 11; 12; 13; 14; 15; 16]).2
  = [10; 11; 12; 13; 14; 15; 16] ∧
  (Evaluate.rank_split true 2 3 [10; 11; 12; 13; 14; 15; 16]).2 = [16].
Proof.
  split; [|reflexivity].
  pose proof (proj1 (ranks_partition_the_test_set
                       [10; 11; 12; 13; 14; 15; 16] 3 ltac:(lia))) as H.
  etransitivity; [|exact H]. reflexivity.
Defined.

(** Seven frames in batches of three. *)
Lemma batches_cover_the_test_set_witness :
  ∃ batches,
    Evaluate.batch_loop 8 [10; 11; 12; 13; 14; 15; 16] 3 0 = Some batches ∧
    batches = [[10; 11; 12]; [13; 14; 15]; [16]] ∧
    concat batches = [10; 11; 12; 13; 14; 15; 16].
Proof.
  destruct (batches_cover_the_test_set [10; 11; 12; 13; 14; 15; 16] 3 8
              ltac:(lia) ltac:(simpl; lia))
    as (batches & Hloop & Hcat & _).
  exists batches. split; [exact Hloop|]. split; [|exact Hcat].
  vm_compute in Hloop. injection Hloop as <-. reflexivity.
Defined.

(** Seven frames with batch size -2: frames 15 and 16 are left out. *)
Lemma nonpositive_batch_size_witness :
  Evaluate.batch_loop 2 [10; 11; 12; 13; 14; 15; 16] (-2) 0
  = Some [[10; 11; 12; 13; 14]] ∧
  Evaluate.batch_loop 2 [10; 11; 12; 13; 14; 15; 16] 0 0 = Some [].
Proof.
  split.
  - etransitivity.
    + exact (nonpositive_batch_size [10; 11; 12; 13; 14; 15; 16] (-2)
               ltac:(lia)).
    + reflexivity.
  - etransitivity.
    + exact (nonpositive_batch_size [10; 11; 12; 13; 14; 15; 16] 0
               ltac:(lia)).
    + reflexivity.
Defined.

(** Three frames, twice over, on two ranks, in batches of two. *)
Lemma evaluation_covers_the_repeated_test_set_witness :
  ∃ per_rank : nat → list (list Z),
    Evaluate.evaluated_by_rank 7 [4; 5; 6] 2 2 true 0 2
    = Some (per_rank 0%nat) ∧
    Evaluate.evaluated_by_rank 7 [4; 5; 6] 2 2 true 1 2
    = Some (per_rank 1%nat) ∧
    concat (per_rank 0%nat) ++ concat (per_rank 1%nat)
    = [4; 5; 6; 4; 5; 6].
Proof.
  destruct (evaluation_covers_the_repeated_test_set [4; 5; 6] 2 2 2 7
              ltac:(lia) ltac:(lia) ltac:(lia) ltac:(simpl; lia))
    as [(per_rank & Hrank & Hcat) _].
  exists per_rank. split; [exact (Hrank 0%nat)|].
  split; [exact (Hrank 1%nat)|].
  simpl in Hcat. rewrite app_nil_r in Hcat. exact Hcat.
Defined.

Lemma field_names_round_trip_witness :
  Evaluate.join_with "," ["forces"; "total_energy"] = "forces,total_energy"
  ∧ Evaluate.field_names "forces,total_energy" = ["forces"; "total_energy"]
  ∧ Evaluate.field_names ",forces,,total_energy," = ["forces"; "total_energy"].
Proof.
  split; [reflexivity|]. split; [|reflexivity].
  apply (field_names_round_trip ["forces"; "total_energy"]).
  repeat constructor; discriminate.
Defined.

(** [--train-dir results --output out.xyz] *)
Lemma test_source_is_chosen_witness :
  ∃ r,
    Evaluate.sample_resolve_args
      (Evaluate.Args (Some "results") None None None None
         (Some "out.xyz") "" "")
    = ([], Return r) ∧
    Evaluate.r_dataset_config r = "results/config.yaml" ∧
    Evaluate.r_model r = "results/best_model.pth" ∧
    Evaluate.choose_test_source
      (Evaluate.Args (Some "results") None None None None
         (Some "out.xyz") "" "") r
    = ([], Return (Evaluate.Automatic {[0; 1; 2]} {[3]})).
Proof.
  eexists. split; [vm_compute; reflexivity|].
  split; [reflexivity|]. split; [reflexivity|].
  apply (test_source_is_chosen Evaluate.sample_joinpath id
           Evaluate.sample_suffix Evaluate.sample_trainer
           (Evaluate.Args (Some "results") None None None None
              (Some "out.xyz") "" "") []).
  vm_compute. reflexivity.
Defined.

(** Six frames, trained on 0-2, validated on 3: the test set is {4, 5}. *)
Lemma automatic_test_set_assertions_hold_witness :
  ∃ test_idcs,
    Evaluate.automatic_test_set elements 6 false {[0; 1; 2]} {[3]}
    = ([], Return test_idcs) ∧
    (4 ∈ test_idcs) ∧ (5 ∈ test_idcs) ∧ (3 ∉ test_idcs).
Proof.
  destruct (automatic_test_set_assertions_hold elements 6 false
              {[0; 1; 2]} {[3]}) as (t & Hrun & Hin).
  { intros s x. apply elem_of_elements. }
  exists t. split; [exact Hrun|].
  split; [|split].
  - apply Hin. split; [lia|].
    split; [|intros _]; rewrite ?elem_of_union, ?elem_of_singleton; lia.
  - apply Hin. split; [lia|].
    split; [|intros _]; rewrite ?elem_of_union, ?elem_of_singleton; lia.
  - intros H3. apply Hin in H3 as (_ & Hval & _).
    apply Hval, elem_of_singleton. reflexivity.
Defined.

(** [--train-dir results --metrics-config None]: nothing to do. *)
Example nothing_to_do :
  result (Evaluate.sample_resolve_args
            (Evaluate.Args (Some "results") None None (Some "None") None
               None "" ""))
  = Raise (ValueError "Nothing to do! Must provide at least one of --metrics-config, --train-dir (to use training config for metrics), or --output").
Proof. reflexivity. Qed.

(** [--train-dir results --output-fields forces], with no [--output]. *)
Example output_fields_without_output :
  result (Evaluate.sample_resolve_args
            (Evaluate.Args (Some "results") None None None None
               None "forces" ""))
  = Raise (AssertionError None).
Proof. reflexivity. Qed.

(** [--train-dir results --output out.extxyz] *)
Example output_suffix_refused :
  result (Evaluate.sample_resolve_args
            (Evaluate.Args (Some "results") None None None None
               (Some "out.extxyz") "" ""))
  = Raise (ValueError "Only .xyz format for `--output` is supported.").
Proof. reflexivity. Qed.
